(** * User-profile application (app.py): validation and request handlers

    A shallow embedding of [src/app.py]: the form validator
    [validate_user_input] and the handlers [register], [view_profile],
    [edit_profile] and [delete_profile], over an explicit model of the
    database session, the flashed messages and the responses. *)

From Stdlib Require Import ZArith NArith Ascii String List Bool Lia.
From stdpp Require Import base option list countable gmap fin_maps strings.

Local Open Scope Z_scope.

(** ** Python strings

    A Python [str] is a sequence of Unicode code points; a code point is an
    [N], so no character outside Latin-1 is excluded from the model. *)

Module PyStr.

(** A source literal, written as a Rocq string of ASCII characters. *)
Definition py (s : string) : list N :=
  List.map N_of_ascii (list_ascii_of_string s).

Definition chr (a : ascii) : N := N_of_ascii a.

(** [str.isspace] on one code point: the white-space table of CPython
    ([_PyUnicode_IsWhitespace]). *)
Definition is_space (c : N) : bool :=
  ((9 <=? c) && (c <=? 13) || (28 <=? c) && (c <=? 32)
   || (c =? 133) || (c =? 160) || (c =? 5760)
   || (8192 <=? c) && (c <=? 8202)
   || (c =? 8232) || (c =? 8233) || (c =? 8239) || (c =? 8287)
   || (c =? 12288))%N.

(** [s.lstrip()], [s.rstrip()], [s.strip()] with no argument. *)
Fixpoint lstrip (s : list N) : list N :=
  match s with
  | [] => []
  | c :: s' => if is_space c then lstrip s' else s
  end.

Definition rstrip (s : list N) : list N := rev (lstrip (rev s)).

Definition strip (s : list N) : list N := rstrip (lstrip s).

(** [c in s] for a one-character [c]. *)
Fixpoint contains (c : N) (s : list N) : bool :=
  match s with
  | [] => false
  | d :: s' => if (d =? c)%N then true else contains c s'
  end.

(** [s.split(sep)] for a one-character [sep]: a cut at every occurrence,
    empty pieces kept. *)
Fixpoint split (sep : N) (s : list N) : list (list N) :=
  match s with
  | [] => [[]]
  | c :: s' =>
      if (c =? sep)%N then [] :: split sep s'
      else match split sep s' with
           | [] => [[c]]
           | w :: ws => (c :: w) :: ws
           end
  end.

(** [s.replace(old, new)] for one-character [old] and [new]. *)
Definition replace (old new : N) (s : list N) : list N :=
  List.map (fun c => if (c =? old)%N then new else c) s.

(** Truth value of a string: non-empty. *)
Definition truthy (s : list N) : bool :=
  match s with [] => false | _ => true end.

#[global] Arguments py : simpl never.
#[global] Arguments chr : simpl never.

End PyStr.

Import PyStr.

(** ** Exceptions and fallible pure code *)

Inductive exn : Type :=
| KeyError (key : list N)
| IndexError
| ObjectDeletedError
| OverflowError
| DatabaseError (text : list N).

Inductive outcome (A : Type) : Type :=
| Ret (a : A)
| Raise (e : exn).

Arguments Ret {A} a.
Arguments Raise {A} e.

#[global] Instance outcome_ret : MRet outcome := fun _ a => Ret a.
#[global] Instance outcome_bind : MBind outcome := fun _ _ f m =>
  match m with
  | Ret a => f a
  | Raise e => Raise e
  end.

(** ** Form data: a Python [dict] from field name to value *)

(** [d[k]]: raises [KeyError] on a missing key. *)
Definition getitem (k : list N) (d : gmap (list N) (list N)) : outcome (list N) :=
  match d !! k with
  | Some v => Ret v
  | None => Raise (KeyError k)
  end.

(** [k in d]. *)
Definition has_key (k : list N) (d : gmap (list N) (list N)) : bool :=
  bool_decide (is_Some (d !! k)).

(** [l[i]] on a list: raises [IndexError] out of range. *)
Definition list_item {A} (l : list A) (i : nat) : outcome A :=
  match l !! i with
  | Some x => Ret x
  | None => Raise IndexError
  end.

(** ** The validator *)

Definition required_fields : list (list N) :=
  [py "username"; py "email"; py "first_name"; py "last_name"].

Definition msg_required (field : list N) : list N :=
  py "Field '" ++ replace (chr "_") (chr " ") field ++ py "' is required.".

Definition msg_email : list N := py "Please enter a valid email address.".

Definition msg_username_short : list N :=
  py "Username must be at least 3 characters long.".

(** The loop over [required_fields]: [Some msg] stands for the early
    [return False, msg], [None] for falling out of the loop. *)
Fixpoint check_required (fields : list (list N)) (data : gmap (list N) (list N))
  : outcome (option (list N)) :=
  match fields with
  | [] => Ret None
  | field :: rest =>
      if negb (has_key field data) then Ret (Some (msg_required field))
      else
        v ← getitem field data;
        if negb (truthy (strip v)) then Ret (Some (msg_required field))
        else check_required rest data
  end.

(** The condition of the email test, with the short-circuit of [or]:
    ['@' not in e or '.' not in e.split('@')[1]]. *)
Definition email_rejected (data : gmap (list N) (list N)) : outcome bool :=
  e ← getitem (py "email") data;
  if negb (contains (chr "@") e) then Ret true
  else
    e' ← getitem (py "email") data;
    dom ← list_item (split (chr "@") e') 1;
    Ret (negb (contains (chr ".") dom)).

Definition validate_user_input (data : gmap (list N) (list N))
  : outcome (bool * list N) :=
  missing ← check_required required_fields data;
  match missing with
  | Some msg => Ret (false, msg)
  | None =>
      bad_email ← email_rejected data;
      if (bad_email : bool) then Ret (false, msg_email)
      else
        u ← getitem (py "username") data;
        if (Z.of_nat (length (strip u)) <? 3) then Ret (false, msg_username_short)
        else Ret (true, @nil N)
  end.

(** ** The table of users and the database session

    A row of [User] is keyed by its primary key [id]; the table is a finite
    map from [id] to the other five columns. *)

Record User : Type := mkUser {
  username : list N;
  email : list N;
  first_name : list N;
  last_name : list N;
  bio : list N
}.

(** The SQLAlchemy session, as far as the routes use it: the table as last
    committed and the table as the open transaction sees it. [add],
    [delete] and attribute assignment change the second; [commit] makes it
    the first, or raises and changes nothing; [rollback] goes back to the
    first. *)
Record session : Type := mkSession {
  committed : gmap Z User;
  working : gmap Z User
}.

Inductive http_method : Type := GET | POST.

Record request : Type := mkRequest {
  method : http_method;
  form : gmap (list N) (list N)
}.

(** [commit_fault] is the environment of the database: [Some text] when a
    commit raises an exception whose [str] is [text]. *)
Record world : Type := mkWorld {
  db : session;
  flashes : list (list N * list N);
  commit_fault : option (list N)
}.

Inductive endpoint : Type :=
| ep_index
| ep_view_profile (user_id : Z).

Inductive response : Type :=
| render_template (template : list N)
    (users : option (list (Z * User)))
    (user : option (Z * User))
    (form_data : option (gmap (list N) (list N)))
| redirect (target : endpoint).

(** ** Handlers: state and exceptions *)

Definition handler (A : Type) : Type := world -> outcome A * world.

#[global] Instance handler_ret : MRet handler := fun _ a w => (Ret a, w).
#[global] Instance handler_bind : MBind handler := fun _ _ f m w =>
  match m w with
  | (Ret a, w') => f a w'
  | (Raise e, w') => (Raise e, w')
  end.

Definition lift {A} (o : outcome A) : handler A := fun w => (o, w).

(** [try: body except Exception as e: handle e]. *)
Definition try_except {A} (body : handler A) (handle : exn -> handler A)
  : handler A := fun w =>
  match body w with
  | (Ret a, w') => (Ret a, w')
  | (Raise e, w') => handle e w'
  end.

(** [str(e)]. The keys of this program are identifiers, whose [repr] only
    adds the quotes. *)
Definition str_exn (e : exn) : list N :=
  match e with
  | KeyError k => py "'" ++ k ++ py "'"
  | IndexError => py "list index out of range"
  | ObjectDeletedError => py "Instance has been deleted"
  | OverflowError => py "Python int too large to convert to SQLite INTEGER"
  | DatabaseError text => text
  end.

Definition set_working (t : gmap Z User) (w : world) : world :=
  mkWorld (mkSession (committed (db w)) t) (flashes w) (commit_fault w).

Definition flash (message category : list N) : handler unit := fun w =>
  (Ret tt, mkWorld (db w) (flashes w ++ [(message, category)]) (commit_fault w)).

(** The integers SQLite stores and accepts as a parameter: 64 bits, signed. *)
Definition in_range (i : Z) : bool := (- 2 ^ 63 <=? i) && (i <? 2 ^ 63).

(** [User.query.get(i)]: the handle of the row, when there is one. The id
    is bound as a parameter of the query: an [i] outside the 64-bit range
    makes the driver raise [OverflowError], and no query is run. A row of
    the table always has a 64-bit id, so the range matters only where no
    row is found. *)
Definition query_get (i : Z) : handler (option Z) := fun w =>
  match working (db w) !! i with
  | Some _ => (Ret (Some i), w)
  | None =>
      if in_range i then (Ret None, w) else (Raise OverflowError, w)
  end.

(** Reading the row behind a handle, as the session holds it now. *)
Definition load (i : Z) : handler User := fun w =>
  match working (db w) !! i with
  | Some r => (Ret r, w)
  | None => (Raise ObjectDeletedError, w)
  end.

(** [User.query.all()]. *)
Definition query_all : handler (list (Z * User)) := fun w =>
  (Ret (map_to_list (working (db w))), w).

(** [User.query.filter_by(username=u).first()] and the same on [email]. *)
Definition first_by_username (u : list N) : handler (option (Z * User)) :=
  fun w => (Ret (head (map_to_list
    (filter (fun kr => username kr.2 = u) (working (db w))))), w).

Definition first_by_email (e : list N) : handler (option (Z * User)) :=
  fun w => (Ret (head (map_to_list
    (filter (fun kr => email kr.2 = e) (working (db w))))), w).

(** The key SQLite gives a new row of an [INTEGER PRIMARY KEY] table: one
    more than the largest key in use, 1 on an empty table. *)
Definition max_id (t : gmap Z User) : option Z :=
  map_fold (fun k _ acc =>
    Some (match acc with Some m => Z.max k m | None => k end)) None t.

Definition next_id (t : gmap Z User) : Z :=
  match max_id t with
  | Some m => m + 1
  | None => 1
  end.

Definition session_add (r : User) : handler unit := fun w =>
  (Ret tt, set_working (<[next_id (working (db w)) := r]> (working (db w))) w).

Definition session_delete (i : Z) : handler unit := fun w =>
  (Ret tt, set_working (delete i (working (db w))) w).

(** Assignment to the attributes of a loaded row. *)
Definition session_update (i : Z) (f : User -> User) : handler unit := fun w =>
  (Ret tt, set_working (alter f i (working (db w))) w).

Definition session_commit : handler unit := fun w =>
  match commit_fault w with
  | Some text => (Raise (DatabaseError text), w)
  | None =>
      (Ret tt, mkWorld (mkSession (working (db w)) (working (db w)))
                       (flashes w) (commit_fault w))
  end.

Definition session_rollback : handler unit := fun w =>
  (Ret tt, set_working (committed (db w)) w).

(** [request.form.get(k, '')]. *)
Definition form_get (req : request) (k : string) : list N :=
  default [] (form req !! py k).

(** The [form_data] dictionary both [register] and [edit_profile] build. *)
Definition form_data_of (req : request) : gmap (list N) (list N) :=
  <[py "username" := form_get req "username"]>
  (<[py "email" := form_get req "email"]>
  (<[py "first_name" := form_get req "first_name"]>
  (<[py "last_name" := form_get req "last_name"]>
  (<[py "bio" := form_get req "bio"]> ∅)))).

Definition msg_username_taken : list N :=
  py "Username already exists. Please choose a different username.".
Definition msg_email_taken : list N :=
  py "Email already registered. Please use a different email.".
Definition msg_not_found : list N := py "User not found.".
Definition msg_updated : list N := py "Profile updated successfully!".
Definition msg_registered (u : list N) : list N :=
  py "User " ++ u ++ py " registered successfully!".
Definition msg_deleted (u : list N) : list N :=
  py "User " ++ u ++ py " deleted successfully!".
Definition msg_register_failed (e : exn) : list N :=
  py "An error occurred during registration: " ++ str_exn e.
Definition msg_edit_failed (e : exn) : list N :=
  py "An error occurred while updating the profile: " ++ str_exn e.
Definition msg_delete_failed (e : exn) : list N :=
  py "An error occurred while deleting the user: " ++ str_exn e.

Definition snapshot (i : Z) : handler (option (Z * User)) := fun w =>
  (Ret (pair i <$> working (db w) !! i), w).

(** ** The routes

    An early [return] inside nested [if]s becomes the first branch of a
    conditional whose other branch is the rest of the function. A [try]
    block yields [Some resp] when it returned [resp] and [None] when its
    [except] clause ran and control fell through to the last [return].
    A loaded [User] object is the id of its row: its attributes are read
    and written through the session. *)

Definition index : handler response :=
  users ← query_all;
  mret (render_template (py "index.html") (Some users) None None).

Definition register (req : request) : handler response :=
  match method req with
  | POST =>
      let form_data := form_data_of req in
      '(is_valid, error_msg) ← lift (validate_user_input form_data);
      if negb is_valid then
        flash error_msg (py "error");;
        mret (render_template (py "register.html") None None (Some form_data))
      else
        u ← lift (getitem (py "username") form_data);
        existing_user ← first_by_username u;
        if existing_user is Some _ then
          flash msg_username_taken (py "error");;
          mret (render_template (py "register.html") None None (Some form_data))
        else
          e ← lift (getitem (py "email") form_data);
          existing_email ← first_by_email e;
          if existing_email is Some _ then
            flash msg_email_taken (py "error");;
            mret (render_template (py "register.html") None None (Some form_data))
          else
            finished ← try_except
              (u ← lift (getitem (py "username") form_data);
               e ← lift (getitem (py "email") form_data);
               f ← lift (getitem (py "first_name") form_data);
               l ← lift (getitem (py "last_name") form_data);
               b ← lift (getitem (py "bio") form_data);
               session_add (mkUser u e f l b);;
               session_commit;;
               u' ← lift (getitem (py "username") form_data);
               flash (msg_registered u') (py "success");;
               mret (Some (redirect ep_index)))
              (fun exc =>
                 session_rollback;;
                 flash (msg_register_failed exc) (py "error");;
                 mret None);
            match finished with
            | Some resp => mret resp
            | None => mret (render_template (py "register.html") None None None)
            end
  | GET => mret (render_template (py "register.html") None None None)
  end.

Definition view_profile (user_id : Z) : handler response :=
  user ← query_get user_id;
  match user with
  | None =>
      flash msg_not_found (py "error");;
      mret (redirect ep_index)
  | Some user =>
      shown ← snapshot user;
      mret (render_template (py "profile.html") None shown None)
  end.

Definition edit_profile (req : request) (user_id : Z) : handler response :=
  user ← query_get user_id;
  match user with
  | None =>
      flash msg_not_found (py "error");;
      mret (redirect ep_index)
  | Some user =>
      match method req with
      | POST =>
          let form_data := form_data_of req in
          '(is_valid, error_msg) ← lift (validate_user_input form_data);
          if negb is_valid then
            flash error_msg (py "error");;
            shown ← snapshot user;
            mret (render_template (py "edit_profile.html") None shown (Some form_data))
          else
            u ← lift (getitem (py "username") form_data);
            current ← load user;
            username_clash ←
              (if bool_decide (u ≠ username current) then
                 existing_user ← first_by_username u;
                 mret (bool_decide (is_Some existing_user))
               else mret false);
            if (username_clash : bool) then
              flash msg_username_taken (py "error");;
              shown ← snapshot user;
              mret (render_template (py "edit_profile.html") None shown (Some form_data))
            else
              e ← lift (getitem (py "email") form_data);
              current ← load user;
              email_clash ←
                (if bool_decide (e ≠ email current) then
                   existing_email ← first_by_email e;
                   mret (bool_decide (is_Some existing_email))
                 else mret false);
              if (email_clash : bool) then
                flash msg_email_taken (py "error");;
                shown ← snapshot user;
                mret (render_template (py "edit_profile.html") None shown (Some form_data))
              else
                finished ← try_except
                  (u ← lift (getitem (py "username") form_data);
                   session_update user (fun r =>
                     mkUser u (email r) (first_name r) (last_name r) (bio r));;
                   e ← lift (getitem (py "email") form_data);
                   session_update user (fun r =>
                     mkUser (username r) e (first_name r) (last_name r) (bio r));;
                   f ← lift (getitem (py "first_name") form_data);
                   session_update user (fun r =>
                     mkUser (username r) (email r) f (last_name r) (bio r));;
                   l ← lift (getitem (py "last_name") form_data);
                   session_update user (fun r =>
                     mkUser (username r) (email r) (first_name r) l (bio r));;
                   b ← lift (getitem (py "bio") form_data);
                   session_update user (fun r =>
                     mkUser (username r) (email r) (first_name r) (last_name r) b);;
                   session_commit;;
                   flash msg_updated (py "success");;
                   mret (Some (redirect (ep_view_profile user))))
                  (fun exc =>
                     session_rollback;;
                     flash (msg_edit_failed exc) (py "error");;
                     mret None);
                match finished with
                | Some resp => mret resp
                | None =>
                    shown ← snapshot user;
                    mret (render_template (py "edit_profile.html") None shown None)
                end
      | GET =>
          shown ← snapshot user;
          mret (render_template (py "edit_profile.html") None shown None)
      end
  end.

Definition delete_profile (user_id : Z) : handler response :=
  user ← query_get user_id;
  match user with
  | None =>
      flash msg_not_found (py "error");;
      mret (redirect ep_index)
  | Some user =>
      try_except
        (current ← load user;
         let name := username current in
         session_delete user;;
         session_commit;;
         flash (msg_deleted name) (py "success"))
        (fun exc =>
           session_rollback;;
           flash (msg_delete_failed exc) (py "error"));;
      mret (redirect ep_index)
  end.

(** A request starts with a clean session on the table [t]. *)
Definition begin_request (t : gmap Z User) (fl : list (list N * list N))
    (fault : option (list N)) : world :=
  mkWorld (mkSession t t) fl fault.

(** ** Reference notions for the statements about the validator *)

(** The substring after the first [c] (empty when there is none). *)
Fixpoint after_first (c : N) (s : list N) : list N :=
  match s with
  | [] => []
  | d :: s' => if (d =? c)%N then s' else after_first c s'
  end.

(** The substring before the first [c] (all of [s] when there is none). *)
Fixpoint before_first (c : N) (s : list N) : list N :=
  match s with
  | [] => []
  | d :: s' => if (d =? c)%N then [] else d :: before_first c s'
  end.

(** Absent, or made of white space only (the empty string included). *)
Definition blank (data : gmap (list N) (list N)) (field : string) : bool :=
  match data !! py field with
  | None => true
  | Some v => forallb is_space v
  end.

(** The value of the email test on the string [e]. *)
Definition email_check_fails (e : list N) : bool :=
  negb (contains (chr "@") e)
  || negb (contains (chr ".") (default [] (split (chr "@") e !! 1%nat))).

(** The email test as the specification words it: no ['@'], or no ['.']
    in what follows the first ['@']. *)
Definition email_check_fails_spec (e : list N) : bool :=
  negb (contains (chr "@") e)
  || negb (contains (chr ".") (after_first (chr "@") e)).

(** ** Reference notions for the statements about the handlers *)

Definition username_in_use (u : list N) (t : gmap Z User) : Prop :=
  exists j r, t !! j = Some r /\ username r = u.

Definition email_in_use (e : list N) (t : gmap Z User) : Prop :=
  exists j r, t !! j = Some r /\ email r = e.

#[global] Instance username_in_use_dec u t : Decision (username_in_use u t).
Proof.
  refine (@map_Exists_dec _ _ _ _ _ _ _ _ _ _ _ _
            (fun _ r => username r = u) (fun _ r => decide (username r = u)) t).
Defined.

#[global] Instance email_in_use_dec e t : Decision (email_in_use e t).
Proof.
  refine (@map_Exists_dec _ _ _ _ _ _ _ _ _ _ _ _
            (fun _ r => email r = e) (fun _ r => decide (email r = e)) t).
Defined.

(** The row made of the five submitted values, as the form has them. *)
Definition submitted (req : request) : User :=
  mkUser (form_get req "username") (form_get req "email")
         (form_get req "first_name") (form_get req "last_name")
         (form_get req "bio").

(** The request flashed a message of category [success] after [fl]. *)
Definition succeeded (fl : list (list N * list N)) (w : world) : Prop :=
  exists m, flashes w = fl ++ [(m, py "success")].

(** The table as a later request finds it. *)
Definition stored (w : world) : gmap Z User := committed (db w).

(** ** Example data *)

Definition mkform (u e f l : string) (b : option string)
  : gmap (list N) (list N) :=
  let m := <[py "username" := py u]> (<[py "email" := py e]>
           (<[py "first_name" := py f]> (<[py "last_name" := py l]> ∅))) in
  match b with
  | Some b => <[py "bio" := py b]> m
  | None => m
  end.

Definition alice : User :=
  mkUser (py "alice") (py "a@b.com") (py "A") (py "B") (py "hi").

Definition bob : User :=
  mkUser (py "abc") (py "x@y.org") (py "Bob") (py "Roe") [].

Definition one_user : gmap Z User := <[1 := alice]> ∅.

Definition two_users : gmap Z User := <[2 := bob]> (<[1 := alice]> ∅).

(** ** Serving requests

    The route table of the application: one call per decorated function.
    [/delete/<id>] accepts POST only, so its call carries no request. *)

Inductive call : Type :=
| call_index
| call_register (req : request)
| call_view_profile (user_id : Z)
| call_edit_profile (req : request) (user_id : Z)
| call_delete_profile (user_id : Z).

Definition dispatch (c : call) : handler response :=
  match c with
  | call_index => index
  | call_register req => register req
  | call_view_profile user_id => view_profile user_id
  | call_edit_profile req user_id => edit_profile req user_id
  | call_delete_profile user_id => delete_profile user_id
  end.

(** The id in the URL of a call, when its route has one. *)
Definition call_id (c : call) : option Z :=
  match c with
  | call_index | call_register _ => None
  | call_view_profile user_id
  | call_edit_profile _ user_id
  | call_delete_profile user_id => Some user_id
  end.

(** The table a call leaves behind, served on a clean session; the second
    argument says whether its commit fails. *)
Definition table_after (c : call) (fault : option (list N))
    (t : gmap Z User) : gmap Z User :=
  stored (dispatch c (begin_request t [] fault)).2.

(** A sequence of calls, served one after the other. *)
Fixpoint serve_all (cs : list (call * option (list N))) (t : gmap Z User)
  : gmap Z User :=
  match cs with
  | [] => t
  | (c, fault) :: cs' => serve_all cs' (table_after c fault t)
  end.

(** ** Invariants of the table *)

(** No two rows agree on the column [col]. *)
Definition unique_by (col : User -> list N) (t : gmap Z User) : Prop :=
  map_Forall (fun i r =>
    map_Forall (fun j s => col r = col s -> i = j) t) t.

#[global] Instance unique_by_dec col t : Decision (unique_by col t).
Proof. unfold unique_by. apply _. Defined.

(** A row as the dictionary the validator reads. *)
Definition row_data (r : User) : gmap (list N) (list N) :=
  <[py "username" := username r]>
  (<[py "email" := email r]>
  (<[py "first_name" := first_name r]>
  (<[py "last_name" := last_name r]>
  (<[py "bio" := bio r]> ∅)))).

Definition passes_validation (r : User) : bool :=
  match validate_user_input (row_data r) with
  | Ret (true, _) => true
  | _ => false
  end.

(** Every row would pass the validator as it stands. *)
Definition all_valid (t : gmap Z User) : Prop :=
  map_Forall (fun _ r => passes_validation r = true) t.

#[global] Instance all_valid_dec t : Decision (all_valid t).
Proof. unfold all_valid. apply _. Defined.

(** [sep.join(pieces)] for a one-character [sep]. *)
Fixpoint join (sep : N) (pieces : list (list N)) : list N :=
  match pieces with
  | [] => []
  | [w] => w
  | w :: ws => w ++ sep :: join sep ws
  end.

(** ** Strings *)

Section Strings.

Implicit Types (c : N) (s : list N).

Lemma contains_app c s1 s2 :
  contains c (s1 ++ s2) = contains c s1 || contains c s2.
Proof.
  induction s1 as [|d s1 IH]; simpl; [done|].
  by destruct (d =? c)%N.
Qed.

Lemma split_unfold c s :
  split c s =
  before_first c s ::
    (if contains c s then split c (after_first c s) else []).
Proof.
  induction s as [|d s IH]; simpl; [done|].
  destruct (d =? c)%N; [done|].
  by rewrite IH.
Qed.

Lemma split_second c s :
  split c s !! 1%nat =
  if contains c s then Some (before_first c (after_first c s)) else None.
Proof.
  rewrite split_unfold. destruct (contains c s); [|done].
  by rewrite (split_unfold c (after_first c s)).
Qed.

Lemma contains_before_first c d s :
  contains c (before_first d s) = true -> contains c s = true.
Proof.
  induction s as [|x s IH]; simpl; [done|].
  destruct (x =? d)%N; simpl; [done|].
  destruct (x =? c)%N; auto.
Qed.

Lemma contains_after_first c d s :
  contains c (after_first d s) = true -> contains c s = true.
Proof.
  induction s as [|x s IH]; simpl; [done|].
  destruct (x =? d)%N, (x =? c)%N; auto.
Qed.

Lemma lstrip_nil s : lstrip s = [] <-> forallb is_space s = true.
Proof.
  induction s as [|d s IH]; simpl; [done|].
  destruct (is_space d); simpl; [done|]. split; discriminate.
Qed.

Lemma lstrip_spaces s :
  forallb is_space (lstrip s) = true -> forallb is_space s = true.
Proof.
  induction s as [|d s IH]; simpl; [done|].
  destruct (is_space d) eqn:E; simpl; [done|]. by rewrite E.
Qed.

Lemma forallb_rev (f : N -> bool) s : forallb f (rev s) = forallb f s.
Proof.
  induction s as [|d s IH]; simpl; [done|].
  rewrite forallb_app, IH. simpl. rewrite andb_true_r. apply andb_comm.
Qed.

Lemma strip_blank s : truthy (strip s) = false <-> forallb is_space s = true.
Proof.
  unfold strip, rstrip. split.
  - intros H. apply lstrip_spaces. rewrite <- forallb_rev.
    apply lstrip_spaces.
    destruct (lstrip (rev (lstrip s))) as [|d r]; [done|].
    simpl in H. by destruct (rev r).
  - intros H. apply lstrip_nil in H. by rewrite H.
Qed.

Lemma truthy_strip s : truthy (strip s) = negb (forallb is_space s).
Proof.
  destruct (forallb is_space s) eqn:E.
  - by apply strip_blank.
  - destruct (truthy (strip s)) eqn:T; [done|].
    apply strip_blank in T. congruence.
Qed.

End Strings.

(** ** The validator: the loop, and totality *)

Lemma has_key_lookup (d : gmap (list N) (list N)) (k : list N) :
  has_key k d = match d !! k with Some _ => true | None => false end.
Proof.
  unfold has_key. destruct (d !! k) eqn:E.
  - apply bool_decide_eq_true. eauto.
  - apply bool_decide_eq_false. by intros [? ?].
Qed.

Lemma check_required_cons (field : list N) (rest : list (list N)) (data : gmap (list N) (list N)) :
  check_required (field :: rest) data =
  if match data !! field with
     | None => true
     | Some v => forallb is_space v
     end
  then Ret (Some (msg_required field))
  else check_required rest data.
Proof.
  simpl. rewrite has_key_lookup. unfold getitem.
  destruct (data !! field) as [v|]; simpl; [|done].
  rewrite truthy_strip, negb_involutive.
  by destruct (forallb is_space v).
Qed.

Lemma email_rejected_eq (data : gmap (list N) (list N)) (e : list N) :
  data !! py "email" = Some e ->
  email_rejected data = Ret (email_check_fails e).
Proof.
  intros He. unfold email_rejected, email_check_fails, getitem, list_item.
  rewrite He. cbn [mbind outcome_bind]. rewrite split_second.
  by destruct (contains (chr "@") e).
Qed.

Lemma blank_false (data : gmap (list N) (list N)) (field : string) :
  blank data field = false ->
  exists v, data !! py field = Some v /\ forallb is_space v = false.
Proof.
  unfold blank. destruct (data !! py field) as [v|]; [eauto|done].
Qed.

Lemma validate_run (data : gmap (list N) (list N)) :
  validate_user_input data =
  Ret (if blank data "username" then
         (false, msg_required (py "username"))
       else if blank data "email" then
         (false, msg_required (py "email"))
       else if blank data "first_name" then
         (false, msg_required (py "first_name"))
       else if blank data "last_name" then
         (false, msg_required (py "last_name"))
       else if email_check_fails (default [] (data !! py "email")) then
         (false, msg_email)
       else if (length (strip (default [] (data !! py "username"))) <? 3)%nat then
         (false, msg_username_short)
       else (true, [])).
Proof.
  unfold validate_user_input, required_fields.
  rewrite !check_required_cons. fold (blank data "username").
  fold (blank data "email"). fold (blank data "first_name").
  fold (blank data "last_name").
  destruct (blank data "username") eqn:Bu; [done|].
  destruct (blank data "email") eqn:Be; [done|].
  destruct (blank data "first_name") eqn:Bf; [done|].
  destruct (blank data "last_name") eqn:Bl; [done|].
  apply blank_false in Bu as (u & Hu & _).
  apply blank_false in Be as (e & He & _).
  cbn [check_required mbind outcome_bind].
  rewrite (email_rejected_eq _ _ He), He, Hu. unfold getitem. rewrite Hu.
  cbn [mbind outcome_bind default from_option id].
  destruct (email_check_fails e); [done|].
  replace (Z.of_nat (length (strip u)) <? 3) with (length (strip u) <? 3)%nat.
  - by destruct (length (strip u) <? 3)%nat.
  - destruct (Nat.ltb_spec (length (strip u)) 3);
      [symmetry; apply Z.ltb_lt | symmetry; apply Z.ltb_ge]; lia.
Qed.

(** C2: the validator applies its checks in a fixed order and the first
    failing one decides: the four required fields in the order username,
    email, first_name, last_name (absent or blank gives the message with the
    field's underscores turned into spaces), then the email test, then the
    length of the trimmed username; otherwise it returns [(True, '')]. It
    raises on no input. *)
Theorem validate_check_order (data : gmap (list N) (list N)) :
  validate_user_input data =
  Ret (if blank data "username" then
         (false, py "Field 'username' is required.")
       else if blank data "email" then
         (false, py "Field 'email' is required.")
       else if blank data "first_name" then
         (false, py "Field 'first name' is required.")
       else if blank data "last_name" then
         (false, py "Field 'last name' is required.")
       else if email_check_fails (default [] (data !! py "email")) then
         (false, py "Please enter a valid email address.")
       else if (length (strip (default [] (data !! py "username"))) <? 3)%nat then
         (false, py "Username must be at least 3 characters long.")
       else (true, [])).
Proof. exact (validate_run data). Qed.

Lemma validate_total (data : gmap (list N) (list N)) :
  exists ok msg, validate_user_input data = Ret (ok, msg).
Proof.
  rewrite validate_run.
  repeat match goal with |- context [if ?b then _ else _] => destruct b end;
    eauto.
Qed.

Lemma email_check_fails_segment (e : list N) :
  email_check_fails e = true <->
  contains (chr "@") e = false \/
  contains (chr ".") (before_first (chr "@") (after_first (chr "@") e)) = false.
Proof.
  unfold email_check_fails. rewrite split_second.
  destruct (contains (chr "@") e); cbn [negb orb default from_option id].
  - rewrite negb_true_iff. split; [by right|]. by intros [|].
  - split; [by left|done].
Qed.

(** C1 (as amended): when the four required fields are present and not
    blank, the validator fails with "Please enter a valid email address."
    exactly when the email has no ['@'] or the piece between its first
    ['@'] and the next ['@'] (or the end of the string) has no ['.']. *)
Theorem validate_email_message (data : gmap (list N) (list N)) :
  blank data "username" = false ->
  blank data "email" = false ->
  blank data "first_name" = false ->
  blank data "last_name" = false ->
  validate_user_input data =
    Ret (false, py "Please enter a valid email address.") <->
  contains (chr "@") (default [] (data !! py "email")) = false \/
  contains (chr ".")
    (before_first (chr "@")
       (after_first (chr "@") (default [] (data !! py "email")))) = false.
Proof.
  intros Bu Be Bf Bl. rewrite validate_run, Bu, Be, Bf, Bl.
  rewrite <- email_check_fails_segment.
  destruct (email_check_fails _); [done|].
  split; [|done].
  destruct (length _ <? 3)%nat; intros [=].
Qed.

(** ** The table: queries and fresh keys *)

Section Table.

Implicit Types (t : gmap Z User) (i j : Z) (r : User).

Lemma first_filter_None (P : Z * User -> Prop) `{!forall x, Decision (P x)} t :
  head (map_to_list (filter P t)) = None <->
  forall j r, t !! j = Some r -> ~ P (j, r).
Proof.
  rewrite head_None, map_to_list_empty_iff, map_empty_filter.
  reflexivity.
Qed.

Lemma max_id_bound t j r :
  t !! j = Some r -> exists m, max_id t = Some m /\ j <= m.
Proof.
  unfold max_id. revert j r.
  apply (map_fold_weak_ind (fun acc (m : gmap Z User) =>
    forall j r, m !! j = Some r -> exists mx, acc = Some mx /\ j <= mx)).
  - intros j r H. by rewrite lookup_empty in H.
  - intros i x m acc Hi IH j r Hj.
    destruct (decide (i = j)) as [->|Hne].
    + destruct acc as [mx|]; eexists; split; try reflexivity; lia.
    + rewrite lookup_insert_ne in Hj by done.
      destruct (IH j r Hj) as (mx & -> & Hle).
      eexists; split; [reflexivity|lia].
Qed.

Lemma next_id_fresh t : t !! next_id t = None.
Proof.
  destruct (t !! next_id t) as [r|] eqn:E; [|done].
  destruct (max_id_bound _ _ _ E) as (m & Hm & Hle).
  unfold next_id in Hle. rewrite Hm in Hle. lia.
Qed.

End Table.

Lemma first_by_username_Some u t :
  is_Some (head (map_to_list (filter (fun kr : Z * User => username kr.2 = u) t)))
  <-> username_in_use u t.
Proof.
  split.
  - intros [[j r] E]. apply head_Some_elem_of, elem_of_map_to_list in E.
    apply map_lookup_filter_Some in E as [? ?]. by exists j, r.
  - intros (j & r & Hj & Hr). apply not_eq_None_Some. intros E.
    by apply (proj1 (first_filter_None _ t) E j r Hj).
Qed.

Lemma first_by_email_Some e t :
  is_Some (head (map_to_list (filter (fun kr : Z * User => email kr.2 = e) t)))
  <-> email_in_use e t.
Proof.
  split.
  - intros [[j r] E]. apply head_Some_elem_of, elem_of_map_to_list in E.
    apply map_lookup_filter_Some in E as [? ?]. by exists j, r.
  - intros (j & r & Hj & Hr). apply not_eq_None_Some. intros E.
    by apply (proj1 (first_filter_None _ t) E j r Hj).
Qed.

Lemma first_by_username_None u t :
  ~ username_in_use u t ->
  head (map_to_list (filter (fun kr : Z * User => username kr.2 = u) t)) = None.
Proof. intros H. apply eq_None_not_Some. by rewrite first_by_username_Some. Qed.

Lemma first_by_email_None e t :
  ~ email_in_use e t ->
  head (map_to_list (filter (fun kr : Z * User => email kr.2 = e) t)) = None.
Proof. intros H. apply eq_None_not_Some. by rewrite first_by_email_Some. Qed.

(** ** The form data *)

Ltac py_neq := let H := fresh in intros H; vm_compute in H; discriminate H.

Section FormData.

Variable req : request.

Lemma getitem_username :
  getitem (py "username") (form_data_of req) = Ret (form_get req "username").
Proof. unfold getitem, form_data_of. by rewrite lookup_insert_eq. Qed.

Lemma getitem_email :
  getitem (py "email") (form_data_of req) = Ret (form_get req "email").
Proof.
  unfold getitem, form_data_of.
  rewrite lookup_insert_ne by py_neq. by rewrite lookup_insert_eq.
Qed.

Lemma getitem_first_name :
  getitem (py "first_name") (form_data_of req) = Ret (form_get req "first_name").
Proof.
  unfold getitem, form_data_of.
  rewrite !lookup_insert_ne by py_neq. by rewrite lookup_insert_eq.
Qed.

Lemma getitem_last_name :
  getitem (py "last_name") (form_data_of req) = Ret (form_get req "last_name").
Proof.
  unfold getitem, form_data_of.
  rewrite !lookup_insert_ne by py_neq. by rewrite lookup_insert_eq.
Qed.

Lemma getitem_bio :
  getitem (py "bio") (form_data_of req) = Ret (form_get req "bio").
Proof.
  unfold getitem, form_data_of.
  rewrite !lookup_insert_ne by py_neq. by rewrite lookup_insert_eq.
Qed.

End FormData.

Ltac run :=
  cbv [mbind mret handler_bind handler_ret lift flash try_except query_get
       load snapshot first_by_username first_by_email session_add
       session_delete session_update session_commit session_rollback
       set_working db flashes commit_fault committed working begin_request
       negb].

Ltac run_form :=
  repeat (run; rewrite ?getitem_username, ?getitem_email,
            ?getitem_first_name, ?getitem_last_name, ?getitem_bio).

(** ** What each route does on a clean session *)

Section Routes.

Variables (t : gmap Z User) (fl : list (list N * list N)).
Variable fault : option (list N).

Lemma register_run req :
  method req = POST ->
  register req (begin_request t fl fault) =
  match validate_user_input (form_data_of req) with
  | Raise e => (Raise e, begin_request t fl fault)
  | Ret (false, msg) =>
      (Ret (render_template (py "register.html") None None
              (Some (form_data_of req))),
       begin_request t (fl ++ [(msg, py "error")]) fault)
  | Ret (true, _) =>
      if decide (username_in_use (form_get req "username") t) then
        (Ret (render_template (py "register.html") None None
                (Some (form_data_of req))),
         begin_request t (fl ++ [(msg_username_taken, py "error")]) fault)
      else if decide (email_in_use (form_get req "email") t) then
        (Ret (render_template (py "register.html") None None
                (Some (form_data_of req))),
         begin_request t (fl ++ [(msg_email_taken, py "error")]) fault)
      else
        match fault with
        | None =>
            (Ret (redirect ep_index),
             begin_request (<[next_id t := submitted req]> t)
               (fl ++ [(msg_registered (form_get req "username"), py "success")])
               None)
        | Some text =>
            (Ret (render_template (py "register.html") None None None),
             begin_request t
               (fl ++ [(py "An error occurred during registration: " ++ text,
                        py "error")])
               (Some text))
        end
  end.
Proof.
  intros Hm. unfold register. rewrite Hm.
  destruct (validate_user_input (form_data_of req)) as [[[] msg]|e]; run_form;
    [|done..].
  destruct (decide (username_in_use _ t)) as [Hu|Hu].
  { apply first_by_username_Some in Hu as [x ->]. done. }
  apply first_by_username_None in Hu as ->. run.
  destruct (decide (email_in_use _ t)) as [He|He].
  { apply first_by_email_Some in He as [x ->]. done. }
  apply first_by_email_None in He as ->. run.
  destruct fault; done.
Qed.

Lemma alter_known (f : User -> User) i cur (m : gmap Z User) :
  m !! i = Some cur -> alter f i m = <[i := f cur]> m.
Proof.
  intros H. apply map_eq. intros j. destruct (decide (i = j)) as [->|Hne].
  - by rewrite lookup_alter_eq, lookup_insert_eq, H.
  - by rewrite lookup_alter_ne, lookup_insert_ne.
Qed.

Lemma view_run i :
  view_profile i (begin_request t fl fault) =
  match t !! i with
  | None =>
      if in_range i then
        (Ret (redirect ep_index),
         begin_request t (fl ++ [(msg_not_found, py "error")]) fault)
      else (Raise OverflowError, begin_request t fl fault)
  | Some cur =>
      (Ret (render_template (py "profile.html") None (Some (i, cur)) None),
       begin_request t fl fault)
  end.
Proof.
  unfold view_profile. run. destruct (t !! i) as [cur|] eqn:E; run.
  - by rewrite E.
  - by destruct (in_range i).
Qed.

Lemma edit_run req i :
  edit_profile req i (begin_request t fl fault) =
  match t !! i with
  | None =>
      if in_range i then
        (Ret (redirect ep_index),
         begin_request t (fl ++ [(msg_not_found, py "error")]) fault)
      else (Raise OverflowError, begin_request t fl fault)
  | Some cur =>
      match method req with
      | GET =>
          (Ret (render_template (py "edit_profile.html") None
                  (Some (i, cur)) None),
           begin_request t fl fault)
      | POST =>
          match validate_user_input (form_data_of req) with
          | Raise e => (Raise e, begin_request t fl fault)
          | Ret (false, msg) =>
              (Ret (render_template (py "edit_profile.html") None
                      (Some (i, cur)) (Some (form_data_of req))),
               begin_request t (fl ++ [(msg, py "error")]) fault)
          | Ret (true, _) =>
              if decide (form_get req "username" <> username cur /\
                         username_in_use (form_get req "username") t) then
                (Ret (render_template (py "edit_profile.html") None
                        (Some (i, cur)) (Some (form_data_of req))),
                 begin_request t
                   (fl ++ [(msg_username_taken, py "error")]) fault)
              else if decide (form_get req "email" <> email cur /\
                              email_in_use (form_get req "email") t) then
                (Ret (render_template (py "edit_profile.html") None
                        (Some (i, cur)) (Some (form_data_of req))),
                 begin_request t
                   (fl ++ [(msg_email_taken, py "error")]) fault)
              else
                match fault with
                | None =>
                    (Ret (redirect (ep_view_profile i)),
                     begin_request (<[i := submitted req]> t)
                       (fl ++ [(msg_updated, py "success")]) None)
                | Some text =>
                    (Ret (render_template (py "edit_profile.html") None
                            (Some (i, cur)) None),
                     begin_request t
                       (fl ++ [(py "An error occurred while updating the profile: "
                                  ++ text, py "error")])
                       (Some text))
                end
          end
      end
  end.
Proof.
  unfold edit_profile. run.
  destruct (t !! i) as [cur|] eqn:E; run; [|by destruct (in_range i)].
  destruct (method req); run; [by rewrite E|].
  destruct (validate_user_input (form_data_of req)) as [[[] msg]|e]; run_form;
    rewrite ?E; [|done..].
  assert (Hclash_u :
    bool_decide (is_Some (head (map_to_list (filter
      (fun kr : Z * User => username kr.2 = form_get req "username") t)))) =
    bool_decide (username_in_use (form_get req "username") t)).
  { apply bool_decide_ext, first_by_username_Some. }
  assert (Hclash_e :
    bool_decide (is_Some (head (map_to_list (filter
      (fun kr : Z * User => email kr.2 = form_get req "email") t)))) =
    bool_decide (email_in_use (form_get req "email") t)).
  { apply bool_decide_ext, first_by_email_Some. }
  assert (Hset : forall m : gmap Z User, m !! i = Some cur ->
    alter (fun r => mkUser (username r) (email r) (first_name r) (last_name r)
                      (form_get req "bio")) i
      (alter (fun r => mkUser (username r) (email r) (first_name r)
                         (form_get req "last_name") (bio r)) i
        (alter (fun r => mkUser (username r) (email r)
                           (form_get req "first_name") (last_name r) (bio r)) i
          (alter (fun r => mkUser (username r) (form_get req "email")
                             (first_name r) (last_name r) (bio r)) i
            (alter (fun r => mkUser (form_get req "username") (email r)
                               (first_name r) (last_name r) (bio r)) i m))))
    = <[i := submitted req]> m).
  { intros m Hm. apply map_eq. intros j.
    destruct (decide (i = j)) as [<-|Hne].
    - by rewrite !lookup_alter_eq, Hm, lookup_insert_eq.
    - by rewrite !lookup_alter_ne, lookup_insert_ne. }
  destruct (decide (form_get req "username" <> username cur /\ _))
    as [[Hu Hin]|Hno_u].
  { rewrite (bool_decide_eq_true_2 _ Hu). rewrite Hclash_u.
    rewrite (bool_decide_eq_true_2 _ Hin). by rewrite E. }
  assert ((if bool_decide (form_get req "username" <> username cur)
           then bool_decide (username_in_use (form_get req "username") t)
           else false) = false) as Hfu.
  { repeat case_bool_decide; naive_solver. }
  destruct (bool_decide (form_get req "username" <> username cur));
    rewrite ?Hclash_u, ?Hfu, ?E.
  all: destruct (decide (form_get req "email" <> email cur /\ _))
         as [[He Hin]|Hno_e];
       [ rewrite (bool_decide_eq_true_2 _ He), Hclash_e,
           (bool_decide_eq_true_2 _ Hin), ?E; done | ].
  all: assert ((if bool_decide (form_get req "email" <> email cur)
                then bool_decide (email_in_use (form_get req "email") t)
                else false) = false) as Hfe
         by (repeat case_bool_decide; naive_solver).
  all: destruct (bool_decide (form_get req "email" <> email cur));
       rewrite ?Hclash_e, ?Hfe.
  all: destruct fault; rewrite ?(Hset t E), ?E; done.
Qed.

Lemma delete_run i :
  delete_profile i (begin_request t fl fault) =
  match t !! i with
  | None =>
      if in_range i then
        (Ret (redirect ep_index),
         begin_request t (fl ++ [(msg_not_found, py "error")]) fault)
      else (Raise OverflowError, begin_request t fl fault)
  | Some cur =>
      match fault with
      | None =>
          (Ret (redirect ep_index),
           begin_request (delete i t)
             (fl ++ [(msg_deleted (username cur), py "success")]) None)
      | Some text =>
          (Ret (redirect ep_index),
           begin_request t
             (fl ++ [(py "An error occurred while deleting the user: " ++ text,
                      py "error")])
             (Some text))
      end
  end.
Proof.
  unfold delete_profile. run.
  destruct (t !! i) as [cur|] eqn:E; run; [|by destruct (in_range i)].
  rewrite E. by destruct fault.
Qed.

End Routes.

(** ** Flashed messages *)

Ltac flash_absurd H :=
  apply app_inv_head in H; vm_compute in H; discriminate H.

Lemma flash_not_silent {A} (fl : list A) (x : A) : fl <> fl ++ [x].
Proof.
  intros H. rewrite <- (app_nil_r fl) in H at 1.
  apply app_inv_head in H. discriminate H.
Qed.

(** ** Validation of the form: the email test *)

(** C1 (as the claim words it) fails: in "a@b@c.com" the text after the
    first ['@'] is "b@c.com", which has a ['.'], yet the validator answers
    "Please enter a valid email address.", because it looks for the ['.']
    in "b", the piece up to the second ['@']. *)
Lemma validate_email_after_first_at_refuted :
  let data := mkform "abc" "a@b@c.com" "A" "B" None in
  blank data "username" = false /\
  blank data "email" = false /\
  blank data "first_name" = false /\
  blank data "last_name" = false /\
  ~ (validate_user_input data =
       Ret (false, py "Please enter a valid email address.") <->
     email_check_fails_spec (default [] (data !! py "email")) = true).
Proof.
  cbv zeta. repeat split; try (vm_compute; reflexivity).
  intros [H _].
  assert (Hv : validate_user_input (mkform "abc" "a@b@c.com" "A" "B" None) =
               Ret (false, py "Please enter a valid email address."))
    by (vm_compute; reflexivity).
  specialize (H Hv). vm_compute in H. discriminate H.
Qed.

Lemma validate_email_message_witness :
  validate_user_input (mkform "abc" "a@b@c.com" "A" "B" None) =
    Ret (false, py "Please enter a valid email address.") <->
  contains (chr "@")
    (default [] (mkform "abc" "a@b@c.com" "A" "B" None !! py "email")) = false \/
  contains (chr ".")
    (before_first (chr "@")
       (after_first (chr "@")
          (default [] (mkform "abc" "a@b@c.com" "A" "B" None !! py "email"))))
    = false.
Proof.
  apply (validate_email_message (mkform "abc" "a@b@c.com" "A" "B" None));
    vm_compute; reflexivity.
Defined.

(** ** Registration *)

(** C3: a registration whose fields pass validation is rejected with the
    username message when some stored record has that username (also when
    the email collides too); otherwise with the email message when some
    stored record has that email; otherwise, the write succeeding, exactly
    one record is added, under a key no record had, holding the five
    submitted values, and the success message names the username. The
    rejections leave the table as it was. *)
Theorem register_outcomes (req : request) (t : gmap Z User)
    (fl : list (list N * list N)) (fault : option (list N)) (msg : list N) :
  method req = POST ->
  validate_user_input (form_data_of req) = Ret (true, msg) ->
  (username_in_use (form_get req "username") t ->
   register req (begin_request t fl fault) =
   (Ret (render_template (py "register.html") None None
           (Some (form_data_of req))),
    begin_request t
      (fl ++ [(py "Username already exists. Please choose a different username.",
               py "error")]) fault)) /\
  (~ username_in_use (form_get req "username") t ->
   email_in_use (form_get req "email") t ->
   register req (begin_request t fl fault) =
   (Ret (render_template (py "register.html") None None
           (Some (form_data_of req))),
    begin_request t
      (fl ++ [(py "Email already registered. Please use a different email.",
               py "error")]) fault)) /\
  (~ username_in_use (form_get req "username") t ->
   ~ email_in_use (form_get req "email") t ->
   fault = None ->
   t !! next_id t = None /\
   size (<[next_id t := submitted req]> t) = S (size t) /\
   register req (begin_request t fl fault) =
   (Ret (redirect ep_index),
    begin_request
      (<[next_id t :=
           mkUser (form_get req "username") (form_get req "email")
                  (form_get req "first_name") (form_get req "last_name")
                  (form_get req "bio")]> t)
      (fl ++ [(py "User " ++ form_get req "username" ++
                 py " registered successfully!", py "success")])
      None)).
Proof.
  intros Hm Hv. rewrite (register_run t fl fault req Hm), Hv.
  split; [|split].
  - intros Hu. by rewrite decide_True.
  - intros Hu He. by rewrite decide_False, decide_True.
  - intros Hu He ->. rewrite !decide_False by done.
    split; [apply next_id_fresh|]. split; [|done].
    apply map_size_insert_None, next_id_fresh.
Qed.

Ltac in_use_no :=
  first [ apply (bool_decide_eq_false_1 (username_in_use _ _))
        | apply (bool_decide_eq_false_1 (email_in_use _ _)) ];
  vm_compute; reflexivity.
Ltac in_use_yes :=
  first [ apply (bool_decide_eq_true_1 (username_in_use _ _))
        | apply (bool_decide_eq_true_1 (email_in_use _ _)) ];
  vm_compute; reflexivity.

Lemma register_outcomes_witness :
  (register (mkRequest POST (mkform "alice" "a@b.com" "A" "B" None))
     (begin_request one_user [] None) =
   (Ret (render_template (py "register.html") None None
           (Some (form_data_of
                    (mkRequest POST (mkform "alice" "a@b.com" "A" "B" None))))),
    begin_request one_user
      [(py "Username already exists. Please choose a different username.",
        py "error")] None)) /\
  (register (mkRequest POST (mkform "carol" "a@b.com" "C" "D" None))
     (begin_request one_user [] None) =
   (Ret (render_template (py "register.html") None None
           (Some (form_data_of
                    (mkRequest POST (mkform "carol" "a@b.com" "C" "D" None))))),
    begin_request one_user
      [(py "Email already registered. Please use a different email.",
        py "error")] None)) /\
  (register (mkRequest POST (mkform "carol" "c@d.com" "C" "D" None))
     (begin_request one_user [] None) =
   (Ret (redirect ep_index),
    begin_request
      (<[2 := mkUser (py "carol") (py "c@d.com") (py "C") (py "D") []]> one_user)
      [(py "User carol registered successfully!", py "success")] None)).
Proof.
  split; [|split].
  - apply (register_outcomes
             (mkRequest POST (mkform "alice" "a@b.com" "A" "B" None))
             one_user [] None [] eq_refl); [vm_compute; reflexivity|].
    in_use_yes.
  - apply (register_outcomes
             (mkRequest POST (mkform "carol" "a@b.com" "C" "D" None))
             one_user [] None [] eq_refl); [vm_compute; reflexivity| |].
    + in_use_no.
    + in_use_yes.
  - apply (register_outcomes
             (mkRequest POST (mkform "carol" "c@d.com" "C" "D" None))
             one_user [] None [] eq_refl); [vm_compute; reflexivity| | |].
    + in_use_no.
    + in_use_no.
    + reflexivity.
Defined.

(** ** Unknown ids *)

(** X23: for an id in the 64-bit range with no record, viewing, editing
    and deleting each flash "User not found.", redirect to the index and
    leave the table and the session as they were. *)
Theorem unknown_id_not_found (req : request) (i : Z) (t : gmap Z User)
    (fl : list (list N * list N)) (fault : option (list N)) :
  t !! i = None ->
  in_range i = true ->
  view_profile i (begin_request t fl fault) =
    (Ret (redirect ep_index),
     begin_request t (fl ++ [(py "User not found.", py "error")]) fault) /\
  edit_profile req i (begin_request t fl fault) =
    (Ret (redirect ep_index),
     begin_request t (fl ++ [(py "User not found.", py "error")]) fault) /\
  delete_profile i (begin_request t fl fault) =
    (Ret (redirect ep_index),
     begin_request t (fl ++ [(py "User not found.", py "error")]) fault).
Proof.
  intros H Hr. by rewrite view_run, edit_run, delete_run, H, Hr.
Qed.

Lemma unknown_id_not_found_witness :
  view_profile 7 (begin_request one_user [] None) =
    (Ret (redirect ep_index),
     begin_request one_user [(py "User not found.", py "error")] None) /\
  edit_profile (mkRequest POST (mkform "carol" "c@d.com" "C" "D" None)) 7
      (begin_request one_user [] None) =
    (Ret (redirect ep_index),
     begin_request one_user [(py "User not found.", py "error")] None) /\
  delete_profile 7 (begin_request one_user [] None) =
    (Ret (redirect ep_index),
     begin_request one_user [(py "User not found.", py "error")] None).
Proof.
  apply (unknown_id_not_found
           (mkRequest POST (mkform "carol" "c@d.com" "C" "D" None))
           7 one_user [] None).
  - vm_compute. reflexivity.
  - reflexivity.
Defined.

(** C7 fails on the code for ids that do not fit in 64 bits, which the
    routes let through: [User.query.get] then raises [OverflowError], in
    each of the three handlers outside any [try], so no "User not found."
    is flashed and no redirect is returned; the table, the session and the
    flashed messages are left as they were. *)
Theorem unknown_id_out_of_range_raises (req : request) (i : Z)
    (t : gmap Z User) (fl : list (list N * list N))
    (fault : option (list N)) :
  t !! i = None ->
  in_range i = false ->
  view_profile i (begin_request t fl fault) =
    (Raise OverflowError, begin_request t fl fault) /\
  edit_profile req i (begin_request t fl fault) =
    (Raise OverflowError, begin_request t fl fault) /\
  delete_profile i (begin_request t fl fault) =
    (Raise OverflowError, begin_request t fl fault).
Proof.
  intros H Hr. by rewrite view_run, edit_run, delete_run, H, Hr.
Qed.

Lemma unknown_id_out_of_range_raises_witness :
  view_profile 9223372036854775808 (begin_request one_user [] None) =
    (Raise OverflowError, begin_request one_user [] None) /\
  edit_profile (mkRequest POST (mkform "carol" "c@d.com" "C" "D" None))
      9223372036854775808 (begin_request one_user [] None) =
    (Raise OverflowError, begin_request one_user [] None) /\
  delete_profile 9223372036854775808 (begin_request one_user [] None) =
    (Raise OverflowError, begin_request one_user [] None).
Proof.
  apply (unknown_id_out_of_range_raises
           (mkRequest POST (mkform "carol" "c@d.com" "C" "D" None))
           9223372036854775808 one_user [] None).
  - vm_compute. reflexivity.
  - reflexivity.
Defined.

(** ** Deletion *)

(** C6: deleting an existing record, the write succeeding, removes it: the
    id is no longer found, the table has exactly one record less, every
    other record is as before, and the success message carries the username
    the record had. The later lookup answers not-found for an id of 64
    bits, as the id of a stored record is. *)
Theorem delete_removes_record (i : Z) (cur : User) (t : gmap Z User)
    (fl : list (list N * list N)) :
  t !! i = Some cur ->
  exists w',
    delete_profile i (begin_request t fl None) = (Ret (redirect ep_index), w') /\
    flashes w' =
      fl ++ [(py "User " ++ username cur ++ py " deleted successfully!",
              py "success")] /\
    stored w' !! i = None /\
    (in_range i = true ->
     view_profile i w' =
       (Ret (redirect ep_index),
        begin_request (stored w')
          (flashes w' ++ [(py "User not found.", py "error")]) None)) /\
    S (size (stored w')) = size t /\
    (forall j, j <> i -> stored w' !! j = t !! j).
Proof.
  intros H. rewrite delete_run, H. eexists. split; [reflexivity|].
  unfold stored. cbn [flashes db committed begin_request].
  split; [done|]. split; [apply lookup_delete_eq|].
  split; [intros Hr; by rewrite view_run, lookup_delete_eq, Hr|].
  split.
  - rewrite map_size_delete, H.
    assert (size t <> 0%nat) by (intros ->%map_size_empty_iff; done).
    lia.
  - intros j Hj. by apply lookup_delete_ne.
Qed.

Lemma delete_removes_record_witness :
  exists w',
    delete_profile 1 (begin_request two_users [] None) =
      (Ret (redirect ep_index), w') /\
    flashes w' = [(py "User alice deleted successfully!", py "success")] /\
    stored w' !! 1 = None /\
    view_profile 1 w' =
      (Ret (redirect ep_index),
       begin_request (stored w')
         (flashes w' ++ [(py "User not found.", py "error")]) None) /\
    S (size (stored w')) = size two_users /\
    (forall j, j <> 1 -> stored w' !! j = two_users !! j).
Proof.
  destruct (delete_removes_record 1 alice two_users [])
    as (w' & Hd & Hf & Hl & Hv & Hs & Ho); [vm_compute; reflexivity|].
  exists w'. repeat split; try assumption.
  apply Hv. reflexivity.
Defined.

(** ** Failure of the write *)

(** C8: when the commit of a registration, an edit or a deletion raises,
    the handler rolls back, so the session and the table are as the request
    found them; it flashes a message that ends with the text of the error,
    unchanged; and it returns a response, it does not raise. *)
Theorem write_failure_rolled_back (t : gmap Z User)
    (fl : list (list N * list N)) (text : list N) :
  (forall req msg,
     method req = POST ->
     validate_user_input (form_data_of req) = Ret (true, msg) ->
     ~ username_in_use (form_get req "username") t ->
     ~ email_in_use (form_get req "email") t ->
     register req (begin_request t fl (Some text)) =
     (Ret (render_template (py "register.html") None None None),
      begin_request t
        (fl ++ [(py "An error occurred during registration: " ++ text,
                 py "error")])
        (Some text))) /\
  (forall req i cur msg,
     t !! i = Some cur ->
     method req = POST ->
     validate_user_input (form_data_of req) = Ret (true, msg) ->
     ~ (form_get req "username" <> username cur /\
        username_in_use (form_get req "username") t) ->
     ~ (form_get req "email" <> email cur /\
        email_in_use (form_get req "email") t) ->
     edit_profile req i (begin_request t fl (Some text)) =
     (Ret (render_template (py "edit_profile.html") None (Some (i, cur)) None),
      begin_request t
        (fl ++ [(py "An error occurred while updating the profile: " ++ text,
                 py "error")])
        (Some text))) /\
  (forall i cur,
     t !! i = Some cur ->
     delete_profile i (begin_request t fl (Some text)) =
     (Ret (redirect ep_index),
      begin_request t
        (fl ++ [(py "An error occurred while deleting the user: " ++ text,
                 py "error")])
        (Some text))).
Proof.
  split; [|split].
  - intros req msg Hm Hv Hu He.
    by rewrite (register_run _ _ _ _ Hm), Hv, !decide_False.
  - intros req i cur msg Hi Hm Hv Hu He.
    by rewrite edit_run, Hi, Hm, Hv, !decide_False.
  - intros i cur Hi. by rewrite delete_run, Hi.
Qed.

Lemma write_failure_rolled_back_witness :
  register (mkRequest POST (mkform "carol" "c@d.com" "C" "D" None))
    (begin_request one_user [] (Some (py "disk I/O error"))) =
  (Ret (render_template (py "register.html") None None None),
   begin_request one_user
     [(py "An error occurred during registration: disk I/O error",
       py "error")]
     (Some (py "disk I/O error"))) /\
  edit_profile (mkRequest POST (mkform "alice" "new@b.com" "A" "B" None)) 1
    (begin_request one_user [] (Some (py "disk I/O error"))) =
  (Ret (render_template (py "edit_profile.html") None (Some (1, alice)) None),
   begin_request one_user
     [(py "An error occurred while updating the profile: disk I/O error",
       py "error")]
     (Some (py "disk I/O error"))) /\
  delete_profile 1 (begin_request one_user [] (Some (py "disk I/O error"))) =
  (Ret (redirect ep_index),
   begin_request one_user
     [(py "An error occurred while deleting the user: disk I/O error",
       py "error")]
     (Some (py "disk I/O error"))).
Proof.
  destruct (write_failure_rolled_back one_user [] (py "disk I/O error"))
    as (Hr & He & Hd).
  split; [|split].
  - apply (Hr (mkRequest POST (mkform "carol" "c@d.com" "C" "D" None)) []
             eq_refl); [vm_compute; reflexivity| |]; in_use_no.
  - apply (He (mkRequest POST (mkform "alice" "new@b.com" "A" "B" None))
             1 alice [] eq_refl eq_refl); [vm_compute; reflexivity| |].
    + intros [Hne _]. apply Hne. vm_compute. reflexivity.
    + intros [_ Hin]. revert Hin. in_use_no.
  - apply (Hd 1 alice eq_refl).
Defined.

(** ** Requests that succeed *)

Lemma register_success_inv (req : request) (t : gmap Z User)
    (fl : list (list N * list N)) (fault : option (list N))
    (out : outcome response) (w' : world) :
  register req (begin_request t fl fault) = (out, w') ->
  succeeded fl w' ->
  method req = POST /\ fault = None /\ out = Ret (redirect ep_index) /\
  w' = begin_request (<[next_id t := submitted req]> t)
         (fl ++ [(msg_registered (form_get req "username"), py "success")])
         None.
Proof.
  intros H [m Hs]. destruct (method req) eqn:Hm.
  { unfold register in H. rewrite Hm in H. injection H as _ <-.
    by apply flash_not_silent in Hs. }
  rewrite (register_run _ _ _ _ Hm) in H.
  destruct (validate_user_input (form_data_of req)) as [[[] msg]|e].
  - repeat destruct (decide _); [| |destruct fault]; injection H as <- <-;
      cbn [flashes begin_request] in Hs;
      first [done | flash_absurd Hs].
  - injection H as _ <-. flash_absurd Hs.
  - injection H as _ <-. by apply flash_not_silent in Hs.
Qed.

Lemma edit_success_inv (req : request) (i : Z) (t : gmap Z User)
    (fl : list (list N * list N)) (fault : option (list N))
    (out : outcome response) (w' : world) :
  edit_profile req i (begin_request t fl fault) = (out, w') ->
  succeeded fl w' ->
  is_Some (t !! i) /\ method req = POST /\ fault = None /\
  out = Ret (redirect (ep_view_profile i)) /\
  w' = begin_request (<[i := submitted req]> t)
         (fl ++ [(msg_updated, py "success")]) None.
Proof.
  intros H [m Hs]. rewrite edit_run in H.
  destruct (t !! i) as [cur|].
  2: { destruct (in_range i); injection H as _ <-;
         [flash_absurd Hs | by apply flash_not_silent in Hs]. }
  destruct (method req).
  { injection H as _ <-. by apply flash_not_silent in Hs. }
  destruct (validate_user_input (form_data_of req)) as [[[] msg]|e].
  - repeat destruct (decide _); [| |destruct fault]; injection H as <- <-;
      cbn [flashes begin_request] in Hs;
      first [by eauto | flash_absurd Hs].
  - injection H as _ <-. flash_absurd Hs.
  - injection H as _ <-. by apply flash_not_silent in Hs.
Qed.

(** ** Editing *)

(** C5: an edit that succeeds overwrites the five editable fields of the
    record with the submitted values; viewing the id afterwards shows
    exactly those values; the record keeps its id (the set of ids is
    unchanged and the redirect goes to that id); every other record is as
    before. *)
Theorem edit_success_overwrites (req : request) (i : Z) (t : gmap Z User)
    (fl : list (list N * list N)) (fault : option (list N))
    (resp : response) (w' : world) :
  edit_profile req i (begin_request t fl fault) = (Ret resp, w') ->
  succeeded fl w' ->
  flashes w' = fl ++ [(py "Profile updated successfully!", py "success")] /\
  resp = redirect (ep_view_profile i) /\
  stored w' !! i =
    Some (mkUser (form_get req "username") (form_get req "email")
                 (form_get req "first_name") (form_get req "last_name")
                 (form_get req "bio")) /\
  view_profile i w' =
    (Ret (render_template (py "profile.html") None
            (Some (i, mkUser (form_get req "username") (form_get req "email")
                        (form_get req "first_name") (form_get req "last_name")
                        (form_get req "bio")))
            None), w') /\
  dom (stored w') = dom t /\
  (forall j, j <> i -> stored w' !! j = t !! j).
Proof.
  intros H Hs.
  destruct (edit_success_inv _ _ _ _ _ _ _ H Hs)
    as ([cur Hi] & Hm & -> & [= ->] & ->).
  unfold stored. cbn [flashes db committed begin_request].
  split; [done|]. split; [done|]. split; [apply lookup_insert_eq|].
  split; [by rewrite view_run, lookup_insert_eq|]. split.
  - rewrite dom_insert_L. apply elem_of_dom_2 in Hi.
    apply subseteq_union_1_L, singleton_subseteq_l, Hi.
  - intros j Hj. by apply lookup_insert_ne.
Qed.

Lemma edit_success_overwrites_witness :
  let req := mkRequest POST (mkform "alicia" "al@b.com" "Al" "Bee" (Some "yo")) in
  let w' := begin_request
              (<[1 := mkUser (py "alicia") (py "al@b.com") (py "Al") (py "Bee")
                        (py "yo")]> two_users)
              [(py "Profile updated successfully!", py "success")] None in
  flashes w' = [(py "Profile updated successfully!", py "success")] /\
  redirect (ep_view_profile 1) = redirect (ep_view_profile 1) /\
  stored w' !! 1 =
    Some (mkUser (form_get req "username") (form_get req "email")
                 (form_get req "first_name") (form_get req "last_name")
                 (form_get req "bio")) /\
  view_profile 1 w' =
    (Ret (render_template (py "profile.html") None
            (Some (1, mkUser (form_get req "username") (form_get req "email")
                        (form_get req "first_name") (form_get req "last_name")
                        (form_get req "bio")))
            None), w') /\
  dom (stored w') = dom two_users /\
  (forall j, j <> 1 -> stored w' !! j = two_users !! j).
Proof.
  cbv zeta.
  apply (edit_success_overwrites
           (mkRequest POST (mkform "alicia" "al@b.com" "Al" "Bee" (Some "yo")))
           1 two_users [] None).
  - vm_compute. reflexivity.
  - exists (py "Profile updated successfully!"). vm_compute. reflexivity.
Defined.

(** C4: in an edit of an existing record whose new fields pass validation,
    the username message is flashed exactly when the new username differs
    from the record's and some record has it, and the email message exactly
    when that is not so, the new email differs from the record's and some
    record has it. So an edit that sends the record's own username and
    email back fails neither test, and is written when the commit works. *)
Theorem edit_uniqueness_conditional (req : request) (i : Z) (cur : User)
    (t : gmap Z User) (fl : list (list N * list N)) (fault : option (list N))
    (msg : list N) :
  t !! i = Some cur ->
  method req = POST ->
  validate_user_input (form_data_of req) = Ret (true, msg) ->
  let w' := (edit_profile req i (begin_request t fl fault)).2 in
  let username_msg :=
    (py "Username already exists. Please choose a different username.",
     py "error") in
  let email_msg :=
    (py "Email already registered. Please use a different email.",
     py "error") in
  (flashes w' = fl ++ [username_msg] <->
   form_get req "username" <> username cur /\
   username_in_use (form_get req "username") t) /\
  (flashes w' = fl ++ [email_msg] <->
   ~ (form_get req "username" <> username cur /\
      username_in_use (form_get req "username") t) /\
   form_get req "email" <> email cur /\
   email_in_use (form_get req "email") t) /\
  (form_get req "username" = username cur ->
   form_get req "email" = email cur ->
   flashes w' <> fl ++ [username_msg] /\
   flashes w' <> fl ++ [email_msg] /\
   (fault = None ->
    edit_profile req i (begin_request t fl fault) =
    (Ret (redirect (ep_view_profile i)),
     begin_request (<[i := submitted req]> t)
       (fl ++ [(py "Profile updated successfully!", py "success")]) None))).
Proof.
  intros Hi Hm Hv. cbv zeta. rewrite edit_run, Hi, Hm, Hv.
  destruct (decide (form_get req "username" <> username cur /\ _)) as [Hu|Hu];
    [|destruct (decide (form_get req "email" <> email cur /\ _)) as [He|He];
      [|destruct fault as [text|]]];
    cbn [snd flashes begin_request].
  - split; [done|]. split.
    + split; [intros H; flash_absurd H | tauto].
    + intros Eu Ee. tauto.
  - split; [split; [intros H; flash_absurd H | tauto]|].
    split; [tauto|]. intros Eu Ee. tauto.
  - split; [split; [intros H; flash_absurd H | tauto]|].
    split; [split; [intros H; flash_absurd H | tauto]|].
    intros Eu Ee. split; [intros H; flash_absurd H|].
    split; [intros H; flash_absurd H | done].
  - split; [split; [intros H; flash_absurd H | tauto]|].
    split; [split; [intros H; flash_absurd H | tauto]|].
    intros Eu Ee. split; [intros H; flash_absurd H|].
    split; [intros H; flash_absurd H | done].
Qed.

Lemma edit_uniqueness_conditional_witness :
  edit_profile (mkRequest POST (mkform "alice" "a@b.com" "Ann" "Bee" (Some "new")))
    1 (begin_request two_users [] None) =
  (Ret (redirect (ep_view_profile 1)),
   begin_request
     (<[1 := mkUser (py "alice") (py "a@b.com") (py "Ann") (py "Bee") (py "new")]>
        two_users)
     [(py "Profile updated successfully!", py "success")] None).
Proof.
  destruct (edit_uniqueness_conditional
              (mkRequest POST (mkform "alice" "a@b.com" "Ann" "Bee" (Some "new")))
              1 alice two_users [] None [] eq_refl eq_refl)
    as (_ & _ & H); [vm_compute; reflexivity|].
  destruct H as (_ & _ & H); [vm_compute; reflexivity..|].
  exact (H eq_refl).
Defined.

(** C10: an edit whose form has no bio field, when it succeeds, leaves the
    record with the empty bio, whatever bio it had. *)
Theorem edit_without_bio_clears_bio (req : request) (i : Z) (t : gmap Z User)
    (fl : list (list N * list N)) (fault : option (list N))
    (resp : response) (w' : world) :
  form req !! py "bio" = None ->
  edit_profile req i (begin_request t fl fault) = (Ret resp, w') ->
  succeeded fl w' ->
  exists old new,
    t !! i = Some old /\ stored w' !! i = Some new /\ bio new = [].
Proof.
  intros Hb H Hs.
  destruct (edit_success_inv _ _ _ _ _ _ _ H Hs)
    as ([cur Hi] & Hm & -> & _ & ->).
  exists cur, (submitted req). split; [done|]. split.
  - unfold stored. cbn [db committed begin_request]. apply lookup_insert_eq.
  - unfold submitted, form_get. cbn [bio]. by rewrite Hb.
Qed.

Lemma edit_without_bio_clears_bio_witness :
  bio alice = py "hi" /\
  exists old new,
    one_user !! 1 = Some old /\
    stored (begin_request
              (<[1 := mkUser (py "alice") (py "a@b.com") (py "A") (py "B") []]>
                 one_user)
              [(py "Profile updated successfully!", py "success")] None) !! 1
      = Some new /\
    bio new = [].
Proof.
  split; [reflexivity|].
  apply (edit_without_bio_clears_bio
           (mkRequest POST (mkform "alice" "a@b.com" "A" "B" None))
           1 one_user [] None (redirect (ep_view_profile 1))).
  - vm_compute. reflexivity.
  - vm_compute. reflexivity.
  - exists (py "Profile updated successfully!"). vm_compute. reflexivity.
Defined.

(** ** Raw values *)

(** C9: a registration or an edit that succeeds stores the submitted
    strings as they came, untrimmed. The username " abc ", whose trimmed
    form "abc" has three characters, is accepted by the validator; the
    registration and the edit that carry it succeed although a record
    named "abc" is stored, the comparison being on the raw strings; and
    they store " abc " with its blanks, beside the record "abc". *)
Theorem stored_values_are_raw :
  (forall req t fl fault resp w',
     register req (begin_request t fl fault) = (Ret resp, w') ->
     succeeded fl w' ->
     stored w' =
     <[next_id t :=
         mkUser (default [] (form req !! py "username"))
                (default [] (form req !! py "email"))
                (default [] (form req !! py "first_name"))
                (default [] (form req !! py "last_name"))
                (default [] (form req !! py "bio"))]> t) /\
  (forall req i t fl fault resp w',
     edit_profile req i (begin_request t fl fault) = (Ret resp, w') ->
     succeeded fl w' ->
     stored w' =
     <[i :=
         mkUser (default [] (form req !! py "username"))
                (default [] (form req !! py "email"))
                (default [] (form req !! py "first_name"))
                (default [] (form req !! py "last_name"))
                (default [] (form req !! py "bio"))]> t) /\
  (let req := mkRequest POST (mkform " abc " "p@q.io" "A" "B" None) in
   strip (py " abc ") = username bob /\
   two_users !! 2 = Some bob /\
   validate_user_input (form_data_of req) = Ret (true, []) /\
   register req (begin_request two_users [] None) =
   (Ret (redirect ep_index),
    begin_request
      (<[3 := mkUser (py " abc ") (py "p@q.io") (py "A") (py "B") []]> two_users)
      [(py "User  abc  registered successfully!", py "success")] None)) /\
  (let req := mkRequest POST (mkform " abc " "a@b.com" "A" "B" None) in
   two_users !! 1 = Some alice /\
   two_users !! 2 = Some bob /\
   validate_user_input (form_data_of req) = Ret (true, []) /\
   edit_profile req 1 (begin_request two_users [] None) =
   (Ret (redirect (ep_view_profile 1)),
    begin_request
      (<[1 := mkUser (py " abc ") (py "a@b.com") (py "A") (py "B") []]> two_users)
      [(py "Profile updated successfully!", py "success")] None)).
Proof.
  split; [|split; [|split]].
  - intros req t fl fault resp w' H Hs.
    by destruct (register_success_inv _ _ _ _ _ _ H Hs) as (_ & _ & _ & ->).
  - intros req i t fl fault resp w' H Hs.
    by destruct (edit_success_inv _ _ _ _ _ _ _ H Hs) as (_ & _ & _ & _ & ->).
  - cbv zeta. repeat split; vm_compute; reflexivity.
  - cbv zeta. repeat split; vm_compute; reflexivity.
Qed.

Lemma stored_values_are_raw_witness :
  stored (register (mkRequest POST (mkform " abc " "p@q.io" "A" "B" None))
            (begin_request two_users [] None)).2 =
  <[next_id two_users :=
      mkUser (py " abc ") (py "p@q.io") (py "A") (py "B") []]> two_users /\
  stored (edit_profile (mkRequest POST (mkform " abc " "a@b.com" "A" "B" None))
            1 (begin_request two_users [] None)).2 =
  <[1 := mkUser (py " abc ") (py "a@b.com") (py "A") (py "B") []]> two_users.
Proof.
  destruct stored_values_are_raw as (Hr & He & _ & _).
  split.
  - apply (Hr (mkRequest POST (mkform " abc " "p@q.io" "A" "B" None))
             two_users [] None (redirect ep_index)).
    + vm_compute. reflexivity.
    + exists (py "User  abc  registered successfully!").
      vm_compute. reflexivity.
  - apply (He (mkRequest POST (mkform " abc " "a@b.com" "A" "B" None))
             1 two_users [] None (redirect (ep_view_profile 1))).
    + vm_compute. reflexivity.
    + exists (py "Profile updated successfully!").
      vm_compute. reflexivity.
Defined.

(** ** What a request can do to the table and to the flashed messages *)

Lemma validate_accepts_empty_msg (data : gmap (list N) (list N)) (msg : list N) :
  validate_user_input data = Ret (true, msg) -> msg = [].
Proof.
  rewrite validate_run.
  repeat match goal with |- context [if ?b then _ else _] => destruct b end;
    by intros [= <-].
Qed.

Section Shapes.

Variables (t : gmap Z User) (fl : list (list N * list N)).
Variable fault : option (list N).

Lemma index_shape :
  index (begin_request t fl fault) =
  (Ret (render_template (py "index.html") (Some (map_to_list t)) None None),
   begin_request t fl fault).
Proof. reflexivity. Qed.

Lemma view_shape i :
  exists out extra,
    view_profile i (begin_request t fl fault) =
      (out, begin_request t (fl ++ extra) fault) /\
    (extra = [] \/ exists m, extra = [(m, py "error")]) /\
    ((exists resp, out = Ret resp) \/
     (out = Raise OverflowError /\ extra = [] /\
      t !! i = None /\ in_range i = false)).
Proof.
  rewrite view_run. destruct (t !! i) as [cur|] eqn:Hi.
  - eexists _, []. rewrite app_nil_r. by eauto 10.
  - destruct (in_range i) eqn:Hr.
    + eexists _, _. by eauto 10.
    + eexists _, []. rewrite app_nil_r. by eauto 10.
Qed.

Lemma register_shape req :
  exists resp extra t',
    register req (begin_request t fl fault) =
      (Ret resp, begin_request t' (fl ++ extra) fault) /\
    ((t' = t /\ (extra = [] \/ exists m, extra = [(m, py "error")])) \/
     (t' = <[next_id t := submitted req]> t /\
      fault = None /\ method req = POST /\
      validate_user_input (form_data_of req) = Ret (true, []) /\
      ~ username_in_use (form_get req "username") t /\
      ~ email_in_use (form_get req "email") t /\
      extra = [(msg_registered (form_get req "username"), py "success")])).
Proof.
  destruct (method req) eqn:Hm.
  { unfold register. rewrite Hm.
    eexists _, [], t. rewrite app_nil_r. split; [reflexivity|]. eauto. }
  rewrite (register_run _ _ _ _ Hm).
  destruct (validate_user_input (form_data_of req)) as [[[] msg]|e] eqn:Hv.
  - apply validate_accepts_empty_msg in Hv as Hmsg. subst msg.
    destruct (decide (username_in_use _ t)); [by eauto 10|].
    destruct (decide (email_in_use _ t)); [by eauto 10|].
    destruct fault; [by eauto 10|].
    eexists _, _, _. split; [reflexivity|]. right. done.
  - by eauto 10.
  - destruct (validate_total (form_data_of req)) as (ok & m & Hv').
    congruence.
Qed.

Lemma edit_shape req i :
  exists out extra t',
    edit_profile req i (begin_request t fl fault) =
      (out, begin_request t' (fl ++ extra) fault) /\
    ((exists resp, out = Ret resp) \/
     (out = Raise OverflowError /\ extra = [] /\
      t !! i = None /\ in_range i = false)) /\
    ((t' = t /\ (extra = [] \/ exists m, extra = [(m, py "error")])) \/
     (exists cur,
        t !! i = Some cur /\
        t' = <[i := submitted req]> t /\
        fault = None /\ method req = POST /\
        validate_user_input (form_data_of req) = Ret (true, []) /\
        (form_get req "username" = username cur \/
         ~ username_in_use (form_get req "username") t) /\
        (form_get req "email" = email cur \/
         ~ email_in_use (form_get req "email") t) /\
        extra = [(msg_updated, py "success")])).
Proof.
  rewrite edit_run. destruct (t !! i) as [cur|] eqn:Hi.
  2: { destruct (in_range i) eqn:Hr; [by eauto 12|].
       eexists _, [], t. rewrite app_nil_r. by eauto 12. }
  destruct (method req) eqn:Hm.
  { eexists _, [], t. rewrite app_nil_r. split; [reflexivity|]. eauto 10. }
  destruct (validate_user_input (form_data_of req)) as [[[] msg]|e] eqn:Hv.
  - apply validate_accepts_empty_msg in Hv as Hmsg. subst msg.
    destruct (decide (form_get req "username" <> username cur /\ _))
      as [|Hu]; [by eauto 12|].
    destruct (decide (form_get req "email" <> email cur /\ _))
      as [|He]; [by eauto 12|].
    destruct fault; [by eauto 12|].
    eexists _, _, _. split; [reflexivity|]. split; [by eauto|].
    right. exists cur.
    repeat split; try done.
    + destruct (decide (form_get req "username" = username cur)); [by left|].
      right. tauto.
    + destruct (decide (form_get req "email" = email cur)); [by left|].
      right. tauto.
  - by eauto 12.
  - destruct (validate_total (form_data_of req)) as (ok & m & Hv').
    congruence.
Qed.

Lemma delete_shape i :
  exists out extra t',
    delete_profile i (begin_request t fl fault) =
      (out, begin_request t' (fl ++ extra) fault) /\
    ((exists resp, out = Ret resp) \/
     (out = Raise OverflowError /\ extra = [] /\
      t !! i = None /\ in_range i = false)) /\
    ((t' = t /\ (extra = [] \/ exists m, extra = [(m, py "error")])) \/
     (exists cur,
        t !! i = Some cur /\ t' = delete i t /\ fault = None /\
        extra = [(msg_deleted (username cur), py "success")])).
Proof.
  rewrite delete_run. destruct (t !! i) as [cur|] eqn:Hi.
  2: { destruct (in_range i) eqn:Hr; [by eauto 12|].
       eexists _, [], t. rewrite app_nil_r. by eauto 12. }
  destruct fault; (eexists _, _, _; split; [reflexivity|]);
    (split; [by eauto|]); [left; by eauto|right; by eauto 10].
Qed.

End Shapes.

(** ** Every route, on every request *)

Lemma dispatch_shape (c : call) (t : gmap Z User)
    (fl : list (list N * list N)) (fault : option (list N)) :
  exists out extra t',
    dispatch c (begin_request t fl fault) =
      (out, begin_request t' (fl ++ extra) fault) /\
    ((exists resp, out = Ret resp) \/
     (out = Raise OverflowError /\ extra = [] /\
      exists i, call_id c = Some i /\ t !! i = None /\ in_range i = false)) /\
    ((t' = t /\ (extra = [] \/ exists m, extra = [(m, py "error")])) \/
     (fault = None /\ exists m, extra = [(m, py "success")])).
Proof.
  destruct c as [|req|i|req i|i]; cbn [dispatch call_id].
  - rewrite index_shape. eexists _, [], t. rewrite app_nil_r. by eauto 10.
  - destruct (register_shape t fl fault req)
      as (resp & extra & t' & -> & [[-> H]|H]); [by eauto 12|].
    destruct H as (_ & ? & _ & _ & _ & _ & ->). by eauto 12.
  - destruct (view_shape t fl fault i) as (out & extra & -> & H & Ho).
    exists out, extra, t. split; [done|]. split; [|by eauto].
    destruct Ho as [?|(? & ? & ? & ?)]; [by left|right; by eauto 10].
  - destruct (edit_shape t fl fault req i)
      as (out & extra & t' & -> & Ho & H).
    exists out, extra, t'. split; [done|]. split.
    { destruct Ho as [?|(? & ? & ? & ?)]; [by left|right; by eauto 10]. }
    destruct H as [[-> H]|H]; [by eauto|].
    destruct H as (cur & _ & _ & ? & _ & _ & _ & _ & ->). by eauto 10.
  - destruct (delete_shape t fl fault i)
      as (out & extra & t' & -> & Ho & H).
    exists out, extra, t'. split; [done|]. split.
    { destruct Ho as [?|(? & ? & ? & ?)]; [by left|right; by eauto 10]. }
    destruct H as [[-> H]|H]; [by eauto|].
    destruct H as (cur & _ & _ & ? & ->). by eauto 10.
Qed.



(** X2: a request keeps the messages flashed before it and adds at most
    one. *)
Theorem routes_flash_at_most_once (c : call) (t : gmap Z User)
    (fl : list (list N * list N)) (fault : option (list N)) :
  exists extra,
    flashes (dispatch c (begin_request t fl fault)).2 = fl ++ extra /\
    (length extra <= 1)%nat.
Proof.
  destruct (dispatch_shape c t fl fault) as (out & extra & t' & -> & _ & H).
  exists extra. split; [done|].
  destruct H as [[_ [->|[m ->]]]|[_ [m ->]]]; cbn; lia.
Qed.

(** X3: the table changes only in a request that flashes a message of
    category success; a request that flashes an error, or nothing, leaves
    every record as it was. *)
Theorem table_changes_only_with_success (c : call) (t : gmap Z User)
    (fl : list (list N * list N)) (fault : option (list N)) :
  stored (dispatch c (begin_request t fl fault)).2 <> t ->
  succeeded fl (dispatch c (begin_request t fl fault)).2.
Proof.
  destruct (dispatch_shape c t fl fault) as (out & extra & t' & -> & _ & H).
  unfold stored, succeeded. cbn [snd db committed flashes begin_request].
  intros Hne. destruct H as [[-> _]|[_ [m ->]]]; [done|by eauto].
Qed.

Lemma table_changes_only_with_success_witness :
  succeeded []
    (dispatch (call_delete_profile 1) (begin_request two_users [] None)).2.
Proof.
  apply (table_changes_only_with_success (call_delete_profile 1) two_users
           [] None).
  intros H.
  assert (Hl : stored (dispatch (call_delete_profile 1)
                         (begin_request two_users [] None)).2 !! 1 =
               two_users !! 1) by (by rewrite H).
  vm_compute in Hl. discriminate Hl.
Defined.

(** X4: when the commit fails, the pending change is rolled back on every
    route: after the request the session's own view of the table, which
    held the insert, the update or the deletion, is again the table the
    request found, and so is the committed table. *)
Theorem failed_commit_is_rolled_back (c : call) (t : gmap Z User)
    (fl : list (list N * list N)) (text : list N) :
  working (db (dispatch c (begin_request t fl (Some text))).2) = t /\
  committed (db (dispatch c (begin_request t fl (Some text))).2) = t.
Proof.
  destruct (dispatch_shape c t fl (Some text))
    as (out & extra & t' & -> & _ & [[-> _]|[? _]]); done.
Qed.

(** ** The invariants of the table are kept *)

Section Unique.

Variable col : User -> list N.

Lemma unique_by_insert (k : Z) (r : User) (t : gmap Z User) :
  unique_by col t ->
  (forall j s, j <> k -> t !! j = Some s -> col s <> col r) ->
  unique_by col (<[k := r]> t).
Proof.
  intros U Hk i x Hi j y Hj E.
  destruct (decide (i = k)) as [->|Hik], (decide (j = k)) as [->|Hjk];
    [done| | |].
  - rewrite lookup_insert_eq in Hi. rewrite lookup_insert_ne in Hj by done.
    injection Hi as <-. by destruct (Hk j y Hjk Hj).
  - rewrite lookup_insert_eq in Hj. rewrite lookup_insert_ne in Hi by done.
    injection Hj as <-. by destruct (Hk i x Hik Hi).
  - rewrite lookup_insert_ne in Hi, Hj by done. exact (U i x Hi j y Hj E).
Qed.

Lemma unique_by_delete (k : Z) (t : gmap Z User) :
  unique_by col t -> unique_by col (delete k t).
Proof.
  intros U i x Hi j y Hj E.
  apply lookup_delete_Some in Hi as [_ Hi].
  apply lookup_delete_Some in Hj as [_ Hj].
  exact (U i x Hi j y Hj E).
Qed.

End Unique.

Lemma stored_cases (c : call) (fault : option (list N)) (t : gmap Z User)
    (fl : list (list N * list N)) :
  let t' := stored (dispatch c (begin_request t fl fault)).2 in
  t' = t \/
  (exists req,
     t' = <[next_id t := submitted req]> t /\
     validate_user_input (form_data_of req) = Ret (true, []) /\
     ~ username_in_use (form_get req "username") t /\
     ~ email_in_use (form_get req "email") t) \/
  (exists req i cur,
     t !! i = Some cur /\
     t' = <[i := submitted req]> t /\
     validate_user_input (form_data_of req) = Ret (true, []) /\
     (form_get req "username" = username cur \/
      ~ username_in_use (form_get req "username") t) /\
     (form_get req "email" = email cur \/
      ~ email_in_use (form_get req "email") t)) \/
  (exists i, t' = delete i t).
Proof.
  cbv zeta. destruct c as [|req|i|req i|i]; cbn [dispatch].
  - left. by rewrite index_shape.
  - destruct (register_shape t fl fault req)
      as (resp & extra & t' & -> & [[-> _]|H]); [by left|].
    right; left. exists req. unfold stored. cbn. tauto.
  - destruct (view_shape t fl fault i) as (out & extra & -> & _). by left.
  - destruct (edit_shape t fl fault req i)
      as (out & extra & t' & -> & _ & [[-> _]|(cur & H)]); [by left|].
    right; right; left. exists req, i, cur. unfold stored. cbn. tauto.
  - destruct (delete_shape t fl fault i)
      as (out & extra & t' & -> & _ & [[-> _]|(cur & _ & -> & _)]); [by left|].
    right; right; right. by exists i.
Qed.

Lemma usernames_preserved (c : call) (fault : option (list N))
    (t : gmap Z User) (fl : list (list N * list N)) :
  unique_by username t ->
  unique_by username (stored (dispatch c (begin_request t fl fault)).2).
Proof.
  intros U.
  destruct (stored_cases c fault t fl)
    as [->|[(req & -> & _ & Hu & _)|[(req & i & cur & Hi & -> & _ & Hu & _)
       |(i & ->)]]].
  - done.
  - apply unique_by_insert; [done|]. intros j s _ Hj E.
    apply Hu. by exists j, s.
  - apply unique_by_insert; [done|]. intros j s Hji Hj E.
    cbn [submitted username] in E.
    destruct Hu as [Hu|Hu].
    + apply Hji. apply (U j s Hj i cur Hi). congruence.
    + apply Hu. by exists j, s.
  - by apply unique_by_delete.
Qed.

Lemma emails_preserved (c : call) (fault : option (list N))
    (t : gmap Z User) (fl : list (list N * list N)) :
  unique_by email t ->
  unique_by email (stored (dispatch c (begin_request t fl fault)).2).
Proof.
  intros U.
  destruct (stored_cases c fault t fl)
    as [->|[(req & -> & _ & _ & He)|[(req & i & cur & Hi & -> & _ & _ & He)
       |(i & ->)]]].
  - done.
  - apply unique_by_insert; [done|]. intros j s _ Hj E.
    apply He. by exists j, s.
  - apply unique_by_insert; [done|]. intros j s Hji Hj E.
    cbn [submitted email] in E.
    destruct He as [He|He].
    + apply Hji. apply (U j s Hj i cur Hi). congruence.
    + apply He. by exists j, s.
  - by apply unique_by_delete.
Qed.

Lemma submitted_passes (req : request) :
  validate_user_input (form_data_of req) = Ret (true, []) ->
  passes_validation (submitted req) = true.
Proof.
  intros H. unfold passes_validation.
  change (row_data (submitted req)) with (form_data_of req). by rewrite H.
Qed.

Lemma validity_preserved (c : call) (fault : option (list N))
    (t : gmap Z User) (fl : list (list N * list N)) :
  all_valid t ->
  all_valid (stored (dispatch c (begin_request t fl fault)).2).
Proof.
  intros V.
  destruct (stored_cases c fault t fl)
    as [->|[(req & -> & Hv & _)|[(req & i & cur & Hi & -> & Hv & _)
       |(i & ->)]]].
  - done.
  - apply map_Forall_insert_2; [by apply submitted_passes|done].
  - apply map_Forall_insert_2; [by apply submitted_passes|done].
  - by apply map_Forall_delete.
Qed.

(** X5: no request ever makes two records share a username, and none ever
    makes two records share an email: if the usernames (the emails) of the
    table are pairwise distinct before a request, they are after it,
    whatever the route, the form and the fate of the commit. *)
Theorem usernames_and_emails_stay_unique (c : call)
    (fault : option (list N)) (t : gmap Z User)
    (fl : list (list N * list N)) :
  (unique_by username t ->
   unique_by username (stored (dispatch c (begin_request t fl fault)).2)) /\
  (unique_by email t ->
   unique_by email (stored (dispatch c (begin_request t fl fault)).2)).
Proof.
  split; [apply usernames_preserved|apply emails_preserved].
Qed.

Lemma usernames_and_emails_stay_unique_witness :
  unique_by username
    (stored (dispatch
       (call_edit_profile
          (mkRequest POST (mkform "carol" "c@d.com" "C" "D" None)) 1)
       (begin_request two_users [] None)).2) /\
  unique_by email
    (stored (dispatch
       (call_edit_profile
          (mkRequest POST (mkform "carol" "c@d.com" "C" "D" None)) 1)
       (begin_request two_users [] None)).2).
Proof.
  destruct (usernames_and_emails_stay_unique
              (call_edit_profile
                 (mkRequest POST (mkform "carol" "c@d.com" "C" "D" None)) 1)
              None two_users []) as [Hu He].
  split; [apply Hu|apply He];
    apply (bool_decide_eq_true_1 (unique_by _ _)); vm_compute; reflexivity.
Defined.

(** X6: if every record of the table would pass the validator, so does
    every record after any request: no route stores a row the validator
    refuses. *)
Theorem records_stay_valid (c : call) (fault : option (list N))
    (t : gmap Z User) (fl : list (list N * list N)) :
  all_valid t ->
  all_valid (stored (dispatch c (begin_request t fl fault)).2).
Proof. apply validity_preserved. Qed.

Lemma records_stay_valid_witness :
  all_valid
    (stored (dispatch
       (call_register (mkRequest POST (mkform "carol" "c@d.com" "C" "D" None)))
       (begin_request two_users [] None)).2).
Proof.
  apply (records_stay_valid
           (call_register
              (mkRequest POST (mkform "carol" "c@d.com" "C" "D" None)))
           None two_users []).
  apply (bool_decide_eq_true_1 (all_valid _)). vm_compute. reflexivity.
Defined.

(** X7: starting from the empty table, whatever calls are served and
    whichever of their commits fail, the usernames are pairwise distinct,
    the emails are pairwise distinct, and every record would pass the
    validator. *)
Theorem reachable_tables_well_formed (cs : list (call * option (list N))) :
  unique_by username (serve_all cs ∅) /\
  unique_by email (serve_all cs ∅) /\
  all_valid (serve_all cs ∅).
Proof.
  assert (G : forall t,
    unique_by username t /\ unique_by email t /\ all_valid t ->
    unique_by username (serve_all cs t) /\
    unique_by email (serve_all cs t) /\
    all_valid (serve_all cs t)).
  { induction cs as [|[c fault] cs IH]; intros t (Hu & He & Hv); [done|].
    cbn [serve_all]. apply IH. unfold table_after.
    split; [by apply usernames_preserved|].
    split; [by apply emails_preserved|by apply validity_preserved]. }
  apply G. repeat split; apply map_Forall_empty.
Qed.

(** ** What a route leaves alone *)

(** X8: a registration, accepted or not, never changes or removes a record
    that exists: whatever is submitted, every record of the table is found
    afterwards under the same id with the same values. *)
Theorem register_keeps_existing_records (req : request) (t : gmap Z User)
    (fl : list (list N * list N)) (fault : option (list N))
    (j : Z) (r : User) :
  t !! j = Some r ->
  stored (register req (begin_request t fl fault)).2 !! j = Some r.
Proof.
  intros Hj.
  destruct (register_shape t fl fault req)
    as (resp & extra & t' & -> & [[-> _]|(-> & _)]);
    unfold stored; cbn [snd db committed begin_request]; [done|].
  rewrite lookup_insert_ne; [done|].
  intros <-. by rewrite next_id_fresh in Hj.
Qed.

Lemma register_keeps_existing_records_witness :
  stored (register (mkRequest POST (mkform "carol" "c@d.com" "C" "D" None))
            (begin_request two_users [] None)).2 !! 2 = Some bob.
Proof.
  apply (register_keeps_existing_records
           (mkRequest POST (mkform "carol" "c@d.com" "C" "D" None))
           two_users [] None 2 bob).
  vm_compute. reflexivity.
Defined.

(** X9: an edit or a deletion of the record [i], whatever its outcome,
    leaves every other record as it was; an edit moreover leaves the set of
    ids as it was, and a deletion adds no id. *)
Theorem edit_and_delete_touch_one_record (req : request) (i : Z)
    (t : gmap Z User) (fl : list (list N * list N))
    (fault : option (list N)) :
  (forall j, j <> i ->
     stored (edit_profile req i (begin_request t fl fault)).2 !! j = t !! j) /\
  dom (stored (edit_profile req i (begin_request t fl fault)).2) = dom t /\
  (forall j, j <> i ->
     stored (delete_profile i (begin_request t fl fault)).2 !! j = t !! j) /\
  dom (stored (delete_profile i (begin_request t fl fault)).2) ⊆ dom t.
Proof.
  destruct (edit_shape t fl fault req i)
    as (out & extra & t' & -> & _ & He).
  destruct (delete_shape t fl fault i) as (out' & extra' & t'' & -> & _ & Hd).
  unfold stored. cbn [snd db committed begin_request].
  assert (Hedit : (forall j, j <> i -> t' !! j = t !! j) /\ dom t' = dom t).
  { destruct He as [[-> _]|(cur & Hi & -> & _)]; [done|]. split.
    - intros j Hj. by apply lookup_insert_ne.
    - rewrite dom_insert_L. apply elem_of_dom_2 in Hi.
      apply subseteq_union_1_L, singleton_subseteq_l, Hi. }
  destruct Hedit as [? ?]. split; [done|]. split; [done|].
  destruct Hd as [[-> _]|(cur & Hi & -> & _)]; [done|]. split.
  - intros j Hj. by apply lookup_delete_ne.
  - rewrite dom_delete_L. apply subseteq_difference_l. done.
Qed.

(** X10: the index page is given exactly the records of the table, each
    once, and serving it changes neither the table nor the flashed
    messages. *)
Theorem index_lists_every_record_once (t : gmap Z User)
    (fl : list (list N * list N)) (fault : option (list N)) :
  exists users,
    index (begin_request t fl fault) =
      (Ret (render_template (py "index.html") (Some users) None None),
       begin_request t fl fault) /\
    NoDup users /\
    length users = size t /\
    (forall i r, (i, r) ∈ users <-> t !! i = Some r).
Proof.
  exists (map_to_list t). split; [apply index_shape|].
  split; [apply NoDup_map_to_list|]. split; [apply length_map_to_list|].
  intros i r. apply elem_of_map_to_list.
Qed.

(** X11: a GET of the registration form or of the edit form of an existing
    record, and the view of an existing record, read only: the table, the
    session and the flashed messages stay as they were, whatever the form
    of the request holds; the edit form and the profile page are given the
    record as stored. *)
Theorem get_requests_read_only (req : request) (i : Z) (cur : User)
    (t : gmap Z User) (fl : list (list N * list N))
    (fault : option (list N)) :
  method req = GET ->
  t !! i = Some cur ->
  register req (begin_request t fl fault) =
    (Ret (render_template (py "register.html") None None None),
     begin_request t fl fault) /\
  edit_profile req i (begin_request t fl fault) =
    (Ret (render_template (py "edit_profile.html") None (Some (i, cur)) None),
     begin_request t fl fault) /\
  view_profile i (begin_request t fl fault) =
    (Ret (render_template (py "profile.html") None (Some (i, cur)) None),
     begin_request t fl fault).
Proof.
  intros Hm Hi. split; [|split].
  - unfold register. by rewrite Hm.
  - by rewrite edit_run, Hi, Hm.
  - by rewrite view_run, Hi.
Qed.

Lemma get_requests_read_only_witness :
  register (mkRequest GET (mkform "x" "y" "z" "w" None))
    (begin_request two_users [] None) =
    (Ret (render_template (py "register.html") None None None),
     begin_request two_users [] None) /\
  edit_profile (mkRequest GET (mkform "x" "y" "z" "w" None)) 2
    (begin_request two_users [] None) =
    (Ret (render_template (py "edit_profile.html") None (Some (2, bob)) None),
     begin_request two_users [] None) /\
  view_profile 2 (begin_request two_users [] None) =
    (Ret (render_template (py "profile.html") None (Some (2, bob)) None),
     begin_request two_users [] None).
Proof.
  apply (get_requests_read_only (mkRequest GET (mkform "x" "y" "z" "w" None))
           2 bob two_users [] None); vm_compute; reflexivity.
Defined.

(** X12: a POST whose fields the validator refuses is answered, by
    [register] and by [edit_profile] on an existing record alike, with the
    form shown again holding the submitted values and with the validator's
    own message flashed as an error; whatever the table holds, it is not
    written. *)
Theorem refused_fields_flash_validator_message (req : request) (i : Z)
    (cur : User) (t : gmap Z User) (fl : list (list N * list N))
    (fault : option (list N)) (msg : list N) :
  method req = POST ->
  validate_user_input (form_data_of req) = Ret (false, msg) ->
  t !! i = Some cur ->
  register req (begin_request t fl fault) =
    (Ret (render_template (py "register.html") None None
            (Some (form_data_of req))),
     begin_request t (fl ++ [(msg, py "error")]) fault) /\
  edit_profile req i (begin_request t fl fault) =
    (Ret (render_template (py "edit_profile.html") None (Some (i, cur))
            (Some (form_data_of req))),
     begin_request t (fl ++ [(msg, py "error")]) fault).
Proof.
  intros Hm Hv Hi. split.
  - by rewrite (register_run _ _ _ _ Hm), Hv.
  - by rewrite edit_run, Hi, Hm, Hv.
Qed.

Lemma refused_fields_flash_validator_message_witness :
  register (mkRequest POST (mkform "ab" "a@b.com" "A" "B" None))
    (begin_request one_user [] None) =
    (Ret (render_template (py "register.html") None None
            (Some (form_data_of
                     (mkRequest POST (mkform "ab" "a@b.com" "A" "B" None))))),
     begin_request one_user
       [(py "Username must be at least 3 characters long.", py "error")]
       None) /\
  edit_profile (mkRequest POST (mkform "ab" "a@b.com" "A" "B" None)) 1
    (begin_request one_user [] None) =
    (Ret (render_template (py "edit_profile.html") None (Some (1, alice))
            (Some (form_data_of
                     (mkRequest POST (mkform "ab" "a@b.com" "A" "B" None))))),
     begin_request one_user
       [(py "Username must be at least 3 characters long.", py "error")]
       None).
Proof.
  apply (refused_fields_flash_validator_message
           (mkRequest POST (mkform "ab" "a@b.com" "A" "B" None))
           1 alice one_user [] None
           (py "Username must be at least 3 characters long."));
    vm_compute; reflexivity.
Defined.

(** ** What the validator and the handlers read *)

(** X13: the validator reads the four required fields only: adding or
    changing any other key of the dictionary, the bio among them, changes
    neither its verdict nor its message. *)
Theorem validator_reads_required_fields_only
    (data : gmap (list N) (list N)) (k v : list N) :
  k ∉ required_fields ->
  validate_user_input (<[k := v]> data) = validate_user_input data.
Proof.
  intros Hk. unfold required_fields in Hk.
  repeat (apply not_elem_of_cons in Hk as [? Hk]).
  rewrite !validate_run. unfold blank.
  by rewrite !lookup_insert_ne by done.
Qed.

Lemma validator_reads_required_fields_only_witness :
  validate_user_input
    (<[py "bio" := py "   "]> (mkform "abc" "a@b.com" "A" "B" None)) =
  validate_user_input (mkform "abc" "a@b.com" "A" "B" None).
Proof.
  apply (validator_reads_required_fields_only
           (mkform "abc" "a@b.com" "A" "B" None) (py "bio") (py "   ")).
  apply (bool_decide_eq_true_1 (_ ∉ _)). vm_compute. reflexivity.
Defined.

Lemma form_data_of_insert (req : request) (k v : list N) :
  k ∉ [py "username"; py "email"; py "first_name"; py "last_name"; py "bio"] ->
  form_data_of (mkRequest (method req) (<[k := v]> (form req))) =
  form_data_of req.
Proof.
  intros Hk. repeat (apply not_elem_of_cons in Hk as [? Hk]).
  unfold form_data_of, form_get. cbn [form].
  by rewrite !lookup_insert_ne by done.
Qed.

(** X14: [register] and [edit_profile] read five fields of the submitted
    form and nothing else: a form with one more field, under any other
    name, is handled exactly as the form without it. *)
Theorem handlers_read_five_fields_only (req : request) (k v : list N)
    (i : Z) (w : world) :
  k ∉ [py "username"; py "email"; py "first_name"; py "last_name"; py "bio"] ->
  register (mkRequest (method req) (<[k := v]> (form req))) w =
    register req w /\
  edit_profile (mkRequest (method req) (<[k := v]> (form req))) i w =
    edit_profile req i w.
Proof.
  intros Hk. unfold register, edit_profile. cbn [method].
  by rewrite (form_data_of_insert req k v Hk).
Qed.

Lemma handlers_read_five_fields_only_witness :
  register
    (mkRequest POST
       (<[py "is_admin" := py "1"]> (mkform "carol" "c@d.com" "C" "D" None)))
    (begin_request one_user [] None) =
  register (mkRequest POST (mkform "carol" "c@d.com" "C" "D" None))
    (begin_request one_user [] None) /\
  edit_profile
    (mkRequest POST
       (<[py "is_admin" := py "1"]> (mkform "carol" "c@d.com" "C" "D" None)))
    1 (begin_request one_user [] None) =
  edit_profile (mkRequest POST (mkform "carol" "c@d.com" "C" "D" None))
    1 (begin_request one_user [] None).
Proof.
  apply (handlers_read_five_fields_only
           (mkRequest POST (mkform "carol" "c@d.com" "C" "D" None))
           (py "is_admin") (py "1") 1 (begin_request one_user [] None)).
  apply (bool_decide_eq_true_1 (_ ∉ _)). vm_compute. reflexivity.
Defined.

(** X15: the validator accepts a dictionary exactly when the four required
    fields are present and each has a character that is not white space,
    the email has an ['@'] and a ['.'] between its first ['@'] and the next
    one (or the end), and the username keeps at least three characters once
    trimmed; and an acceptance always comes with the empty message. *)
Theorem validator_accepts_iff (data : gmap (list N) (list N)) (msg : list N) :
  validate_user_input data = Ret (true, msg) <->
  msg = [] /\
  exists u e f l,
    data !! py "username" = Some u /\
    data !! py "email" = Some e /\
    data !! py "first_name" = Some f /\
    data !! py "last_name" = Some l /\
    forallb is_space u = false /\
    forallb is_space e = false /\
    forallb is_space f = false /\
    forallb is_space l = false /\
    contains (chr "@") e = true /\
    contains (chr ".") (before_first (chr "@") (after_first (chr "@") e)) = true /\
    (3 <= length (strip u))%nat.
Proof.
  rewrite validate_run. split.
  - destruct (blank data "username") eqn:Bu; [intros [=]|].
    destruct (blank data "email") eqn:Be; [intros [=]|].
    destruct (blank data "first_name") eqn:Bf; [intros [=]|].
    destruct (blank data "last_name") eqn:Bl; [intros [=]|].
    apply blank_false in Bu as (u & Hu & Su).
    apply blank_false in Be as (e & He & Se).
    apply blank_false in Bf as (f & Hf & Sf).
    apply blank_false in Bl as (l & Hl & Sl).
    rewrite Hu, He. cbn [default from_option id].
    destruct (email_check_fails e) eqn:Ee; [intros [=]|].
    destruct (Nat.ltb_spec (length (strip u)) 3) as [|Hlen]; [intros [=]|].
    intros [= <-]. split; [done|]. exists u, e, f, l.
    repeat split; try done.
    + destruct (contains (chr "@") e) eqn:C; [done|].
      assert (email_check_fails e = true)
        by (apply email_check_fails_segment; by left).
      congruence.
    + destruct (contains (chr ".") _) eqn:C; [done|].
      assert (email_check_fails e = true)
        by (apply email_check_fails_segment; by right).
      congruence.
  - intros (-> & u & e & f & l & Hu & He & Hf & Hl & Su & Se & Sf & Sl
            & Cat & Cdot & Hlen).
    unfold blank. rewrite Hu, He, Hf, Hl, Su, Se, Sf, Sl.
    cbn [default from_option id].
    destruct (email_check_fails e) eqn:Ee.
    { apply email_check_fails_segment in Ee as [?|?]; congruence. }
    destruct (Nat.ltb_spec (length (strip u)) 3); [lia|done].
Qed.

(** ** Requests in sequence *)

Lemma edit_success_valid (req : request) (i : Z) (t : gmap Z User)
    (fl : list (list N * list N)) (fault : option (list N))
    (out : outcome response) (w' : world) :
  edit_profile req i (begin_request t fl fault) = (out, w') ->
  succeeded fl w' ->
  validate_user_input (form_data_of req) = Ret (true, []).
Proof.
  intros H [m Hs].
  destruct (edit_shape t fl fault req i)
    as (out' & extra & t' & E & _ & [[-> Hx]|(cur & H')]).
  - rewrite E in H. injection H as _ <-. cbn [flashes begin_request] in Hs.
    destruct Hx as [->|[m' ->]].
    + rewrite app_nil_r in Hs. by apply flash_not_silent in Hs.
    + flash_absurd Hs.
  - tauto.
Qed.

(** X16: once a registration has succeeded, a later registration with the
    same username is refused with the username message, whatever its other
    fields, and one with another, unused username but the same email is
    refused with the email message; both leave the table as the first
    registration left it. *)
Theorem second_registration_refused (req1 req2 : request) (t : gmap Z User)
    (fl fl2 : list (list N * list N)) (fault fault2 : option (list N))
    (resp : response) (w1 : world) (msg : list N) :
  register req1 (begin_request t fl fault) = (Ret resp, w1) ->
  succeeded fl w1 ->
  method req2 = POST ->
  validate_user_input (form_data_of req2) = Ret (true, msg) ->
  (form_get req2 "username" = form_get req1 "username" ->
   register req2 (begin_request (stored w1) fl2 fault2) =
   (Ret (render_template (py "register.html") None None
           (Some (form_data_of req2))),
    begin_request (stored w1)
      (fl2 ++ [(py "Username already exists. Please choose a different username.",
                py "error")]) fault2)) /\
  (form_get req2 "username" <> form_get req1 "username" ->
   ~ username_in_use (form_get req2 "username") t ->
   form_get req2 "email" = form_get req1 "email" ->
   register req2 (begin_request (stored w1) fl2 fault2) =
   (Ret (render_template (py "register.html") None None
           (Some (form_data_of req2))),
    begin_request (stored w1)
      (fl2 ++ [(py "Email already registered. Please use a different email.",
                py "error")]) fault2)).
Proof.
  intros H Hs Hm Hv.
  destruct (register_success_inv _ _ _ _ _ _ H Hs) as (_ & _ & _ & ->).
  unfold stored. cbn [db committed begin_request].
  rewrite (register_run _ _ _ _ Hm), Hv. split.
  - intros Eu. rewrite decide_True; [done|].
    exists (next_id t), (submitted req1). by rewrite lookup_insert_eq.
  - intros Nu Hu Ee. rewrite decide_False, decide_True; [done| |].
    + exists (next_id t), (submitted req1). by rewrite lookup_insert_eq.
    + intros (j & r & Hj & Hr).
      destruct (decide (next_id t = j)) as [<-|Hne].
      * rewrite lookup_insert_eq in Hj. injection Hj as <-. by apply Nu.
      * rewrite lookup_insert_ne in Hj by done. apply Hu. by exists j, r.
Qed.

Lemma second_registration_refused_witness :
  register (mkRequest POST (mkform "carol" "other@d.com" "X" "Y" None))
    (begin_request
       (<[2 := mkUser (py "carol") (py "c@d.com") (py "C") (py "D") []]>
          one_user) [] None) =
  (Ret (render_template (py "register.html") None None
          (Some (form_data_of
                   (mkRequest POST (mkform "carol" "other@d.com" "X" "Y" None))))),
   begin_request
     (<[2 := mkUser (py "carol") (py "c@d.com") (py "C") (py "D") []]>
        one_user)
     [(py "Username already exists. Please choose a different username.",
       py "error")] None).
Proof.
  destruct (second_registration_refused
              (mkRequest POST (mkform "carol" "c@d.com" "C" "D" None))
              (mkRequest POST (mkform "carol" "other@d.com" "X" "Y" None))
              one_user [] [] None None (redirect ep_index)
              (begin_request
                 (<[2 := mkUser (py "carol") (py "c@d.com") (py "C") (py "D") []]>
                    one_user)
                 [(py "User carol registered successfully!", py "success")] None)
              []) as [H _].
  - vm_compute. reflexivity.
  - exists (py "User carol registered successfully!"). vm_compute. reflexivity.
  - reflexivity.
  - vm_compute. reflexivity.
  - apply H. vm_compute. reflexivity.
Defined.

(** X17: after a registration that succeeded, the new record can be viewed
    under the id it was given and shows the submitted values; and deleting
    that id, the commit working, brings the table back to what it was
    before the registration. *)
Theorem register_then_view_or_delete (req : request) (t : gmap Z User)
    (fl fl2 : list (list N * list N)) (fault : option (list N))
    (resp : response) (w1 : world) :
  register req (begin_request t fl fault) = (Ret resp, w1) ->
  succeeded fl w1 ->
  view_profile (next_id t) w1 =
    (Ret (render_template (py "profile.html") None
            (Some (next_id t, submitted req)) None), w1) /\
  stored (delete_profile (next_id t) (begin_request (stored w1) fl2 None)).2 = t.
Proof.
  intros H Hs.
  destruct (register_success_inv _ _ _ _ _ _ H Hs) as (_ & _ & _ & ->).
  unfold stored. cbn [db committed begin_request]. split.
  - by rewrite view_run, lookup_insert_eq.
  - rewrite delete_run, lookup_insert_eq. cbn [snd db committed begin_request].
    apply delete_insert_id, next_id_fresh.
Qed.

Lemma register_then_view_or_delete_witness :
  let w1 := begin_request
              (<[2 := mkUser (py "carol") (py "c@d.com") (py "C") (py "D") []]>
                 one_user)
              [(py "User carol registered successfully!", py "success")] None in
  view_profile (next_id one_user) w1 =
    (Ret (render_template (py "profile.html") None
            (Some (next_id one_user,
                   submitted (mkRequest POST
                                (mkform "carol" "c@d.com" "C" "D" None))))
            None), w1) /\
  stored (delete_profile (next_id one_user)
            (begin_request (stored w1) [] None)).2 = one_user.
Proof.
  cbv zeta.
  apply (register_then_view_or_delete
           (mkRequest POST (mkform "carol" "c@d.com" "C" "D" None))
           one_user [] [] None (redirect ep_index)).
  - vm_compute. reflexivity.
  - exists (py "User carol registered successfully!"). vm_compute. reflexivity.
Defined.

(** X18: an edit that succeeded can be sent again: the second time it
    succeeds too, the commit working, although the table now holds its
    username and email, and it leaves the table as the first left it. *)
Theorem edit_twice_same_table (req : request) (i : Z) (t : gmap Z User)
    (fl fl2 : list (list N * list N)) (fault : option (list N))
    (resp : response) (w1 : world) :
  edit_profile req i (begin_request t fl fault) = (Ret resp, w1) ->
  succeeded fl w1 ->
  edit_profile req i (begin_request (stored w1) fl2 None) =
  (Ret (redirect (ep_view_profile i)),
   begin_request (stored w1)
     (fl2 ++ [(py "Profile updated successfully!", py "success")]) None).
Proof.
  intros H Hs.
  pose proof (edit_success_valid _ _ _ _ _ _ _ H Hs) as Hv.
  destruct (edit_success_inv _ _ _ _ _ _ _ H Hs) as (_ & Hm & _ & _ & ->).
  unfold stored. cbn [db committed begin_request].
  rewrite edit_run, lookup_insert_eq, Hm, Hv.
  rewrite !decide_False, insert_insert_eq; [done| |].
  - intros [Hne _]. by apply Hne.
  - intros [Hne _]. by apply Hne.
Qed.

Lemma edit_twice_same_table_witness :
  let w1 := begin_request
              (<[1 := mkUser (py "alicia") (py "al@b.com") (py "Al") (py "Bee")
                        (py "yo")]> two_users)
              [(py "Profile updated successfully!", py "success")] None in
  edit_profile
    (mkRequest POST (mkform "alicia" "al@b.com" "Al" "Bee" (Some "yo"))) 1
    (begin_request (stored w1) [] None) =
  (Ret (redirect (ep_view_profile 1)),
   begin_request (stored w1)
     [(py "Profile updated successfully!", py "success")] None).
Proof.
  cbv zeta.
  apply (edit_twice_same_table
           (mkRequest POST (mkform "alicia" "al@b.com" "Al" "Bee" (Some "yo")))
           1 two_users [] [] None (redirect (ep_view_profile 1))).
  - vm_compute. reflexivity.
  - exists (py "Profile updated successfully!"). vm_compute. reflexivity.
Defined.

(** X19: deleting a record frees its username and its email: when the
    usernames and the emails of the table are pairwise distinct, a
    registration that passes validation and carries the username and email
    of the record just deleted succeeds, the commit working. *)
Theorem deleted_username_can_be_registered (req : request) (i : Z)
    (cur : User) (t : gmap Z User) (fl : list (list N * list N))
    (msg : list N) :
  unique_by username t ->
  unique_by email t ->
  t !! i = Some cur ->
  method req = POST ->
  validate_user_input (form_data_of req) = Ret (true, msg) ->
  form_get req "username" = username cur ->
  form_get req "email" = email cur ->
  register req (begin_request (delete i t) fl None) =
  (Ret (redirect ep_index),
   begin_request (<[next_id (delete i t) := submitted req]> (delete i t))
     (fl ++ [(py "User " ++ username cur ++ py " registered successfully!",
              py "success")]) None).
Proof.
  intros Uu Ue Hi Hm Hv Eu Ee.
  rewrite (register_run _ _ _ _ Hm), Hv, !decide_False.
  - by rewrite Eu.
  - intros (j & r & Hj & Hr). apply lookup_delete_Some in Hj as [Hne Hj].
    apply Hne. apply (Ue i cur Hi j r Hj). congruence.
  - intros (j & r & Hj & Hr). apply lookup_delete_Some in Hj as [Hne Hj].
    apply Hne. apply (Uu i cur Hi j r Hj). congruence.
Qed.

Lemma deleted_username_can_be_registered_witness :
  register (mkRequest POST (mkform "alice" "a@b.com" "New" "Name" None))
    (begin_request (delete 1 two_users) [] None) =
  (Ret (redirect ep_index),
   begin_request
     (<[next_id (delete 1 two_users) :=
          submitted (mkRequest POST (mkform "alice" "a@b.com" "New" "Name" None))]>
        (delete 1 two_users))
     [(py "User " ++ username alice ++ py " registered successfully!",
       py "success")] None).
Proof.
  apply (deleted_username_can_be_registered
           (mkRequest POST (mkform "alice" "a@b.com" "New" "Name" None))
           1 alice two_users [] []).
  - apply (bool_decide_eq_true_1 (unique_by _ _)). vm_compute. reflexivity.
  - apply (bool_decide_eq_true_1 (unique_by _ _)). vm_compute. reflexivity.
  - vm_compute. reflexivity.
  - reflexivity.
  - vm_compute. reflexivity.
  - vm_compute. reflexivity.
  - vm_compute. reflexivity.
Defined.

(** ** The string operations the validator relies on *)

Lemma split_nonempty (c : N) (s : list N) : split c s <> [].
Proof. by rewrite split_unfold. Qed.

(** X20: splitting at a character loses nothing and cuts at every
    occurrence: joining the pieces with the character gives the string
    back, and no piece contains the character. *)
Theorem split_join_round_trip (c : N) (s : list N) :
  join c (split c s) = s /\
  Forall (fun w => contains c w = false) (split c s).
Proof.
  induction s as [|d s [IHj IHf]]; [by split; [|repeat constructor]|].
  cbn [split]. destruct (d =? c)%N eqn:E.
  - apply N.eqb_eq in E as ->. split; [|by constructor].
    cbn [join]. destruct (split c s) eqn:Es; [by apply split_nonempty in Es|].
    by rewrite IHj.
  - destruct (split c s) as [|w ws] eqn:Es; [by apply split_nonempty in Es|].
    split.
    + cbn [join] in *. destruct ws; cbn; by rewrite <- IHj.
    + inversion IHf; subst. constructor; [|done]. cbn. by rewrite E.
Qed.

Lemma lstrip_prefix (s : list N) :
  exists pre, s = pre ++ lstrip s /\ forallb is_space pre = true.
Proof.
  induction s as [|d s (pre & IH & Hpre)]; [by exists []|].
  cbn. destruct (is_space d) eqn:E.
  - exists (d :: pre). cbn. rewrite E, Hpre. by rewrite <- IH.
  - by exists [].
Qed.

Lemma lstrip_head (s : list N) (c : N) (r : list N) :
  lstrip s = c :: r -> is_space c = false.
Proof.
  induction s as [|d s IH]; cbn; [done|].
  destruct (is_space d) eqn:E; [done|]. by intros [= <- _].
Qed.

(** X21: trimming removes white space at the two ends and nothing else:
    the string is its trimmed form between a prefix and a suffix of white
    space, and the trimmed form neither begins nor ends with white
    space. *)
Theorem strip_removes_outer_white_space (s : list N) :
  (exists pre post,
     s = pre ++ strip s ++ post /\
     forallb is_space pre = true /\ forallb is_space post = true) /\
  (forall c r, strip s = c :: r -> is_space c = false) /\
  (forall r c, strip s = r ++ [c] -> is_space c = false).
Proof.
  destruct (lstrip_prefix s) as (pre & Hs & Hpre).
  destruct (lstrip_prefix (rev (lstrip s))) as (tsop & Hr & Hpost).
  assert (Hl : lstrip s = strip s ++ rev tsop).
  { unfold strip, rstrip. rewrite <- rev_app_distr, <- Hr.
    by rewrite rev_involutive. }
  split; [|split].
  - exists pre, (rev tsop). rewrite <- Hl, forallb_rev. done.
  - intros c r Hc. rewrite Hc in Hl. by apply lstrip_head in Hl.
  - intros r c Hc. unfold strip, rstrip in Hc.
    apply (f_equal (@rev N)) in Hc.
    rewrite rev_involutive, rev_app_distr in Hc. by apply lstrip_head in Hc.
Qed.

Lemma forallb_is_space_app (x y : list N) :
  forallb is_space (x ++ y) = forallb is_space x && forallb is_space y.
Proof. apply forallb_app. Qed.

Lemma lstrip_app (v post : list N) :
  lstrip (v ++ post) =
  if forallb is_space v then lstrip post else lstrip v ++ post.
Proof.
  induction v as [|d v IH]; cbn; [done|].
  by destruct (is_space d).
Qed.

Lemma lstrip_all_space (x : list N) :
  forallb is_space x = true -> lstrip x = [].
Proof. apply lstrip_nil. Qed.

Lemma strip_padded (pre v post : list N) :
  forallb is_space pre = true ->
  forallb is_space post = true ->
  strip (pre ++ v ++ post) = strip v.
Proof.
  intros Hpre Hpost. unfold strip, rstrip. f_equal.
  rewrite (lstrip_app pre), Hpre, (lstrip_app v).
  destruct (forallb is_space v) eqn:Hv.
  - by rewrite (lstrip_all_space post), (lstrip_all_space v).
  - rewrite rev_app_distr, lstrip_app, forallb_rev, Hpost. done.
Qed.

(** X22: white space around the username, the first name or the last name
    never changes what the validator answers: a dictionary whose field is
    padded with white space on either side gets the verdict and the message
    of the dictionary with the bare field. *)
Theorem validator_ignores_padding (data : gmap (list N) (list N))
    (k v pre post : list N) :
  k ∈ [py "username"; py "first_name"; py "last_name"] ->
  data !! k = Some v ->
  forallb is_space pre = true ->
  forallb is_space post = true ->
  validate_user_input (<[k := pre ++ v ++ post]> data) =
  validate_user_input data.
Proof.
  intros Hk Hv Hpre Hpost. rewrite !validate_run. unfold blank.
  assert (Hb : forallb is_space (pre ++ v ++ post) = forallb is_space v).
  { rewrite !forallb_is_space_app, Hpre, Hpost. cbn. apply andb_true_r. }
  repeat (apply elem_of_cons in Hk as [->|Hk]); [| | |by apply elem_of_nil in Hk].
  - rewrite lookup_insert_eq, !lookup_insert_ne by py_neq.
    rewrite Hv, Hb. cbn [default from_option id].
    by rewrite strip_padded.
  - rewrite lookup_insert_eq, !lookup_insert_ne by py_neq.
    by rewrite Hv, Hb.
  - rewrite lookup_insert_eq, !lookup_insert_ne by py_neq.
    by rewrite Hv, Hb.
Qed.

Lemma validator_ignores_padding_witness :
  validate_user_input
    (<[py "username" := py "  " ++ py "ab" ++ py " "]>
       (mkform "ab" "a@b.com" "A" "B" None)) =
  validate_user_input (mkform "ab" "a@b.com" "A" "B" None).
Proof.
  apply (validator_ignores_padding (mkform "ab" "a@b.com" "A" "B" None)
           (py "username") (py "ab") (py "  ") (py " ")).
  - apply (bool_decide_eq_true_1 (_ ∈ _)). vm_compute. reflexivity.
  - vm_compute. reflexivity.
  - vm_compute. reflexivity.
  - vm_compute. reflexivity.
Defined.
